(** * A shallow embedding of the combined-cycle gas turbine model (src/main.py)

    Python floats are modelled as exact rationals [Q]; the fluid property
    provider [PropsSI] (CoolProp), [np.log] and the root finder [fsolve]
    (scipy) are external to the repository and are kept abstract as section
    variables.  A Python exception is [None] in the [option] monad. *)

From Stdlib Require Import QArith Qabs Qminmax Lqa Ascii String.
From stdpp Require Import base gmap strings list.

Open Scope Q_scope.
Set Warnings "-register-all".

(* ------------------------------------------------------------------ *)
(** ** Python values, the class dictionary and the logging stream *)

(** Values stored in attributes, kwargs and class constants. *)
Inductive pyval :=
| PyNone
| PyInt (z : Z)
| PyFloat (q : Q)
| PyStr (s : string)
| PyList (l : list pyval)
| PyFunc (name : string).  (** a method object of the class *)

(** Records written through the [logging] module (file [logger.log]). *)
Inductive log_record :=
| InfoSpecified (key : string) (v : pyval)  (** "Setting attribute .. to specified value .." *)
| InfoDefault (key : string) (v : pyval)    (** "Setting attribute .. to default value .." *)
| WarnT7 (T_7 max_t7 : Q)                   (** gas turbine inlet too hot *)
| WarnT3 (T_3 max_t3 : Q)                   (** steam turbine inlet too hot *)
| WarnX4 (x_4 min_x4 : Q)                   (** erosion risk *)
| WarnP3 (p_3 max_p : Q)                    (** supercritical risk *)
| WarnP4 (p_4 min_p : Q).                   (** freezing risk *)

(** [CombinedCycleGasTurbine.__dict__.items()], in definition order. *)
Definition class_dict_items : list (string * pyval) := [
  ("__module__", PyStr "__main__");
  ("_DEF_P_5", PyInt 101325);
  ("_DEF_T_5", PyFloat ((27315 # 100) + 20));
  ("_DEF_P_1", PyFloat ((4 # 100) * 101325));
  ("_DEF_T_1", PyFloat (2979 # 10));
  ("_DEF_GAS_FLUID", PyStr "air");
  ("_DEF_M_DOT_GAS", PyFloat (10559 # 10));
  ("_DEF_STEAM_FLUID", PyStr "water");
  ("_DEF_M_DOT_STEAM", PyFloat (1503 # 10));
  ("_DEF_Q_67", PyFloat 1045300000);
  ("_DEF_R_P_COMP", PyInt 23);
  ("_DEF_R_P_TURB", PyFloat (209186 # 10000));
  ("_DEF_R_P_PUMP", PyInt 1000);
  ("_DEF_N_C_GAS", PyFloat (85 # 100));
  ("_DEF_N_T_GAS", PyFloat (85 # 100));
  ("_DEF_N_C_STEAM", PyFloat (85 # 100));
  ("_DEF_N_T_STEAM", PyFloat (85 # 100));
  ("_DEF_HRSG_F", PyFloat 1);
  ("_DEF_HRSG_UA", PyFloat 5000000);
  ("_DEF_MAX_T7", PyInt (1600 + 273));
  ("_DEF_MAX_T3", PyInt (620 + 273));
  ("_DEF_MIN_X4", PyFloat (90 # 100));
  ("_DEF_MAX_P_HRSG_STEAM", PyInt (200 * 101325));
  ("_DEF_MIN_P_COND", PyFloat ((61 # 10000) * 101325));
  ("attrs_from_kwargs_or_default", PyFunc "attrs_from_kwargs_or_default");
  ("__init__", PyFunc "__init__");
  ("calc_states", PyFunc "calc_states");
  ("calc_energy_exergy_balances", PyFunc "calc_energy_exergy_balances");
  ("plot_Ts_diagram", PyFunc "plot_Ts_diagram");
  ("calc_hrsg_pinch_point", PyFunc "calc_hrsg_pinch_point");
  ("specific_exergy_at_point", PyFunc "specific_exergy_at_point");
  ("specific_exergy_at_state", PyFunc "specific_exergy_at_state");
  ("__str__", PyFunc "__str__")
].

(** [str.startswith] *)
Fixpoint startswith (s prefix : string) : bool :=
  match prefix, s with
  | EmptyString, _ => true
  | String c p, String d s' => if ascii_dec c d then startswith s' p else false
  | String _ _, EmptyString => false
  end.

(** [str.removeprefix] *)
Fixpoint removeprefix_aux (s prefix : string) : option string :=
  match prefix, s with
  | EmptyString, _ => Some s
  | String c p, String d s' => if ascii_dec c d then removeprefix_aux s' p else None
  | String _ _, EmptyString => None
  end.

Definition removeprefix (s prefix : string) : string :=
  match removeprefix_aux s prefix with Some r => r | None => s end.

(** [str.lower] on the ASCII range *)
Definition lower_char (c : ascii) : ascii :=
  let n := nat_of_ascii c in
  if (65 <=? n)%nat && (n <=? 90)%nat then ascii_of_nat (n + 32) else c.

Fixpoint lower (s : string) : string :=
  match s with
  | EmptyString => EmptyString
  | String c s' => String (lower_char c) (lower s')
  end.

Definition is_digit (c : ascii) : bool :=
  let n := nat_of_ascii c in (48 <=? n)%nat && (n <=? 57)%nat.

(** [re.match(r"(T|Q)_\d+", key)] is truthy: the regex is anchored at the
    start of [key] and needs at least one digit after the underscore. *)
Definition match_TQ_digits (key : string) : bool :=
  match key with
  | String c (String u (String d _)) =>
      (if ascii_dec c "T" then true else if ascii_dec c "Q" then true else false)
      && (if ascii_dec u "_" then true else false) && is_digit d
  | _ => false
  end.

(** The attribute name derived from a [_DEF_] class constant. *)
Definition normalize_key (default_key : string) : string :=
  let key := removeprefix default_key "_DEF_" in
  if match_TQ_digits key then key else lower key.

Definition kwargs := gmap string pyval.
Definition instance_dict := gmap string pyval.

(** The loop body of [attrs_from_kwargs_or_default], over the filtered items. *)
Fixpoint set_attrs (items : list (string * pyval)) (kw : gmap string pyval)
    (obj : gmap string pyval) (log : list log_record)
    : gmap string pyval * list log_record :=
  match items with
  | [] => (obj, log)
  | (default_key, default_value) :: rest =>
      let key := normalize_key default_key in
      match kw !! key with
      | Some v => set_attrs rest kw (<[key := v]> obj) (log ++ [InfoSpecified key v])
      | None => set_attrs rest kw (<[key := default_value]> obj) (log ++ [InfoDefault key default_value])
      end
  end.

Definition def_items : list (string * pyval) :=
  filter (fun item => startswith item.1 "_DEF_" = true) class_dict_items.

(** [self.attrs_from_kwargs_or_default], called with the keyword arguments
    [kw] on the instance dictionary [obj]; a keyword named [self] collides with the bound instance and the
    call raises [TypeError] (multiple values for argument 'self'). *)
Definition attrs_from_kwargs_or_default (kw : gmap string pyval)
    (obj : gmap string pyval) (log : list log_record)
    : option (gmap string pyval * list log_record) :=
  match kw !! "self" with
  | Some _ => None
  | None => Some (set_attrs def_items kw obj log)
  end.

(** [CombinedCycleGasTurbine] called with the keyword arguments [kw], i.e.
    [__init__(self, **kwargs)] on a fresh instance dictionary; the same [TypeError] for a keyword named [self]. *)
Definition CombinedCycleGasTurbine (kw : gmap string pyval) (log : list log_record)
    : option (gmap string pyval * list log_record) :=
  match kw !! "self" with
  | Some _ => None
  | None => attrs_from_kwargs_or_default kw ∅ log
  end.

(** The attribute names [attrs_from_kwargs_or_default] looks up in kwargs. *)
Definition recognized_names : list string := map (fun it => normalize_key it.1) def_items.

(* ------------------------------------------------------------------ *)
(** ** The configuration attributes read by the solver *)

Record config := mk_config {
  p_5 : Q; T_5 : Q; p_1 : Q; T_1 : Q;
  gas_fluid : string; m_dot_gas : Q; steam_fluid : string; m_dot_steam : Q;
  Q_67 : Q;
  r_p_comp : Q; r_p_turb : Q; r_p_pump : Q;
  n_c_gas : Q; n_t_gas : Q; n_c_steam : Q; n_t_steam : Q;
  hrsg_f : Q; hrsg_ua : Q;
  max_t7 : Q; max_t3 : Q; min_x4 : Q; max_p_hrsg_steam : Q; min_p_cond : Q
}.

(** [c] with its five process limits replaced. *)
Definition with_limits (c : config) (t7 t3 x4 p3 p4 : Q) : config :=
  mk_config (p_5 c) (T_5 c) (p_1 c) (T_1 c) (gas_fluid c) (m_dot_gas c) (steam_fluid c)
    (m_dot_steam c) (Q_67 c) (r_p_comp c) (r_p_turb c) (r_p_pump c)
    (n_c_gas c) (n_t_gas c) (n_c_steam c) (n_t_steam c) (hrsg_f c) (hrsg_ua c)
    t7 t3 x4 p3 p4.

Definition as_num (v : option pyval) : option Q :=
  match v with Some (PyInt z) => Some (inject_Z z) | Some (PyFloat q) => Some q | _ => None end.

Definition as_str (v : option pyval) : option string :=
  match v with Some (PyStr s) => Some s | _ => None end.

Notation "'let?' x ':=' m 'in' k" :=
  (match m with Some x => k | None => None end)
  (at level 200, x name, m at level 100, k at level 200, only parsing).

(** The numeric and string attributes of an instance, as the solver reads them
    ([None] when an attribute is missing or of another type). *)
Definition to_config (o : gmap string pyval) : option config :=
  let? p_5 := as_num (o !! "p_5") in let? T_5 := as_num (o !! "T_5") in
  let? p_1 := as_num (o !! "p_1") in let? T_1 := as_num (o !! "T_1") in
  let? gas_fluid := as_str (o !! "gas_fluid") in let? m_dot_gas := as_num (o !! "m_dot_gas") in
  let? steam_fluid := as_str (o !! "steam_fluid") in let? m_dot_steam := as_num (o !! "m_dot_steam") in
  let? Q_67 := as_num (o !! "Q_67") in
  let? r_p_comp := as_num (o !! "r_p_comp") in let? r_p_turb := as_num (o !! "r_p_turb") in
  let? r_p_pump := as_num (o !! "r_p_pump") in
  let? n_c_gas := as_num (o !! "n_c_gas") in let? n_t_gas := as_num (o !! "n_t_gas") in
  let? n_c_steam := as_num (o !! "n_c_steam") in let? n_t_steam := as_num (o !! "n_t_steam") in
  let? hrsg_f := as_num (o !! "hrsg_f") in let? hrsg_ua := as_num (o !! "hrsg_ua") in
  let? max_t7 := as_num (o !! "max_t7") in let? max_t3 := as_num (o !! "max_t3") in
  let? min_x4 := as_num (o !! "min_x4") in let? max_p_hrsg_steam := as_num (o !! "max_p_hrsg_steam") in
  let? min_p_cond := as_num (o !! "min_p_cond") in
  Some (mk_config p_5 T_5 p_1 T_1 gas_fluid m_dot_gas steam_fluid m_dot_steam Q_67
          r_p_comp r_p_turb r_p_pump n_c_gas n_t_gas n_c_steam n_t_steam hrsg_f hrsg_ua
          max_t7 max_t3 min_x4 max_p_hrsg_steam min_p_cond).

(** The attributes [calc_states] sets, in the order it sets them. *)
Record state := mk_state {
  p_6 : Q; h_5 : Q; s_5 : Q; ex_5 : Q; h_6s : Q; T_6s : Q; h_6 : Q; s_6 : Q; T_6 : Q; ex_6 : Q;
  p_7 : Q; h_7 : Q; T_7 : Q; s_7 : Q; ex_7 : Q;
  p_8 : Q; h_8s : Q; T_8s : Q; h_8 : Q; s_8 : Q; T_8 : Q; ex_8 : Q;
  h_1 : Q; s_1 : Q; x_1 : Q; ex_1 : Q;
  p_2 : Q; h_2s : Q; T_2s : Q; h_2 : Q; s_2 : Q; T_2 : Q; x_2 : Q; ex_2 : Q;
  Q_23 : Q; T_3 : Q; T_9 : Q; h_3 : Q; h_9 : Q;
  p_3 : Q; s_3 : Q; x_3 : Q; ex_3 : Q; Q_89 : Q; s_9 : Q; ex_9 : Q;
  dT_hot_hrsg : Q; dT_cold_hrsg : Q; lmtd_hrsg : Q;
  p_4 : Q; h_4s : Q; T_4s : Q; h_4 : Q; s_4 : Q; T_4 : Q; x_4 : Q; ex_4 : Q;
  Q_14 : Q
}.

(** Division of two Python floats: [ZeroDivisionError] on a zero divisor. *)
Definition pydiv (a b : Q) : option Q := if Qeq_bool b 0 then None else Some (a / b).

(** Division where an operand is a [numpy.float64] (anything derived from the
    array [fsolve] returns): no exception.  numpy yields inf/nan on a zero
    divisor, which [Q] cannot represent; [Q] gives 0 there.  The statements
    below that rest on such a quotient assume its divisor non-zero
    ([m_dot_steam] for the completed solve and the energy balance, [Q_23] for
    the efficiency composition). *)
Definition npdiv (a b : Q) : Q := a / b.

Definition Qltb (a b : Q) : bool := negb (Qle_bool b a).

(** Default dead state of [specific_exergy_at_point] / [specific_exergy_at_state]. *)
Definition p_0_default : Q := 101325.
Definition T_0_default : Q := 29815 # 100.

(** A ~1e-6 tolerance literal [xtol=1e-6]. *)
Definition xtol : Q := 1 # 1000000.

Section CCGT.

(** [CoolProp.CoolProp.PropsSI(out, in1, v1, in2, v2, fluid)]; [None] is the
    [ValueError] CoolProp raises outside the fluid's valid domain. *)
Variable PropsSI : string -> string -> Q -> string -> Q -> string -> option Q.
(** [np.log] *)
Variable np_log : Q -> Q.
(** [scipy.optimize.fsolve(func, x0, xtol=...)]: the solution vector together
    with whether MINPACK reported convergence (the [ier == 1] flag, which is only
    returned with [full_output=True]); [None] when [func] raises. *)
Variable fsolve :
  (Q * Q * Q -> option (Q * Q * Q)) -> Q * Q * Q -> Q -> option ((Q * Q * Q) * bool).

(** The body of [specific_exergy_at_point] once [fluid], [h], [s] are read. *)
Definition specific_exergy (fluid : string) (h s p_0 T_0 : Q) : option Q :=
  let? h_0 := PropsSI "H" "T" T_0 "P" p_0 fluid in
  let? s_0 := PropsSI "S" "T" T_0 "P" p_0 fluid in
  let b := h - T_0 * s in
  let b_0 := h_0 - T_0 * s_0 in
  Some (b - b_0).

(** [specific_exergy_at_state(p, T, fluid, p_0, T_0)] *)
Definition specific_exergy_at_state (p T : Q) (fluid : string) (p_0 T_0 : Q) : option Q :=
  let? h := PropsSI "H" "T" T "P" p fluid in
  let? s := PropsSI "S" "T" T "P" p fluid in
  let? h_0 := PropsSI "H" "T" T_0 "P" p_0 fluid in
  let? s_0 := PropsSI "S" "T" T_0 "P" p_0 fluid in
  let b := h - T * s in
  let b_0 := h_0 - T_0 * s_0 in
  Some (b - b_0).

(** [getattr(self, f"h_{n}")] and [getattr(self, f"s_{n}")] on a solved instance. *)
Definition attr_hs (st : state) (n : nat) : option (Q * Q) :=
  match n with
  | 1%nat => Some (h_1 st, s_1 st) | 2%nat => Some (h_2 st, s_2 st)
  | 3%nat => Some (h_3 st, s_3 st) | 4%nat => Some (h_4 st, s_4 st)
  | 5%nat => Some (h_5 st, s_5 st) | 6%nat => Some (h_6 st, s_6 st)
  | 7%nat => Some (h_7 st, s_7 st) | 8%nat => Some (h_8 st, s_8 st)
  | 9%nat => Some (h_9 st, s_9 st)
  | _ => None
  end.

(** [specific_exergy_at_point(n, p_0, T_0)] on a solved instance. *)
Definition specific_exergy_at_point (c : config) (st : state) (n : nat) (p_0 T_0 : Q) : option Q :=
  let? fluid := (if (5 <=? n)%nat && (n <=? 9)%nat then Some (gas_fluid c)
                 else if (1 <=? n)%nat && (n <=? 4)%nat then Some (steam_fluid c)
                 else None) in
  let? hs := attr_hs st n in
  specific_exergy fluid hs.1 hs.2 p_0 T_0.

(** The closure [hrsg_equations] of [calc_states], over the attributes it reads. *)
Definition hrsg_equations (c : config) (T_8 T_2 p_8 p_2 h_8 h_2 : Q) (vars : Q * Q * Q)
    : option (Q * Q * Q) :=
  let '(Q_23, T_3, T_9) := vars in
  let eq1 := Q_23 - npdiv (hrsg_f c * hrsg_ua c * ((T_8 - T_3) - (T_9 - T_2)))
                          (np_log (npdiv (T_8 - T_3) (T_9 - T_2))) in
  let? H9 := PropsSI "H" "P" p_8 "T" T_9 (gas_fluid c) in
  let eq2 := H9 - h_8 + npdiv Q_23 (m_dot_gas c) in
  let? H3 := PropsSI "H" "P" p_2 "T" T_3 (steam_fluid c) in
  let eq3 := H3 - h_2 - npdiv Q_23 (m_dot_steam c) in
  Some (eq1, eq2, eq3).

(** [initial_guess] of [calc_states]. *)
Definition initial_guess (c : config) (h_8 h_5 T_2 T_8 : Q) : Q * Q * Q :=
  (m_dot_gas c * (h_8 - h_5) * 3 / 4, T_2 * 5 / 2, T_5 c * 3 / 4 + T_8 * 1 / 4).

(** The process-limit checks at the end of [calc_states]: the warnings they log. *)
Definition check_limits (c : config) (st : state) : list log_record :=
  (if Qltb (max_t7 c) (T_7 st) then [WarnT7 (T_7 st) (max_t7 c)] else []) ++
  (if Qltb (max_t3 c) (T_3 st) then [WarnT3 (T_3 st) (max_t3 c)] else []) ++
  (if Qltb (x_4 st) (min_x4 c) then [WarnX4 (x_4 st) (min_x4 c)] else []) ++
  (if Qltb (max_p_hrsg_steam c) (p_3 st) then [WarnP3 (p_3 st) (max_p_hrsg_steam c)] else []) ++
  (if Qltb (p_4 st) (min_p_cond c) then [WarnP4 (p_4 st) (min_p_cond c)] else []).

(** [calc_states]: the attributes it sets and the records it logs, or [None]
    when a property lookup (or a Python float division) raises. *)
Definition calc_states (c : config) : option (state * list log_record) :=
  let gas := gas_fluid c in
  let steam := steam_fluid c in
  (* gas compressor *)
  let p_6 := p_5 c * r_p_comp c in
  let? h_5 := PropsSI "H" "P" (p_5 c) "T" (T_5 c) gas in
  let? s_5 := PropsSI "S" "P" (p_5 c) "T" (T_5 c) gas in
  let? ex_5 := specific_exergy gas h_5 s_5 p_0_default T_0_default in
  let? h_6s := PropsSI "H" "P" p_6 "S" s_5 gas in
  let? T_6s := PropsSI "T" "P" p_6 "S" s_5 gas in
  let? d_6 := pydiv (h_6s - h_5) (n_c_gas c) in
  let h_6 := h_5 + d_6 in
  let? s_6 := PropsSI "S" "P" p_6 "H" h_6 gas in
  let? T_6 := PropsSI "T" "P" p_6 "H" h_6 gas in
  let? ex_6 := specific_exergy gas h_6 s_6 p_0_default T_0_default in
  (* combustion chamber *)
  let p_7 := p_6 in
  let? q_7 := pydiv (Q_67 c) (m_dot_gas c) in
  let h_7 := h_6 + q_7 in
  let? T_7 := PropsSI "T" "P" p_7 "H" h_7 gas in
  let? s_7 := PropsSI "S" "P" p_7 "H" h_7 gas in
  let? ex_7 := specific_exergy gas h_7 s_7 p_0_default T_0_default in
  (* gas turbine *)
  let? p_8 := pydiv p_7 (r_p_turb c) in
  let? h_8s := PropsSI "H" "P" p_8 "S" s_7 gas in
  let? T_8s := PropsSI "T" "P" p_8 "S" s_7 gas in
  let h_8 := h_7 - (h_7 - h_8s) * n_t_gas c in
  let? s_8 := PropsSI "S" "P" p_8 "H" h_8 gas in
  let? T_8 := PropsSI "T" "P" p_8 "H" h_8 gas in
  let? ex_8 := specific_exergy gas h_8 s_8 p_0_default T_0_default in
  (* steam pump *)
  let? h_1 := PropsSI "H" "P" (p_1 c) "T" (T_1 c) steam in
  let? s_1 := PropsSI "S" "P" (p_1 c) "T" (T_1 c) steam in
  let? x_1 := PropsSI "Q" "P" (p_1 c) "T" (T_1 c) steam in
  let? ex_1 := specific_exergy steam h_1 s_1 p_0_default T_0_default in
  let p_2 := p_1 c * r_p_pump c in
  let? h_2s := PropsSI "H" "P" p_2 "S" s_1 steam in
  let? T_2s := PropsSI "T" "P" p_2 "S" s_1 steam in
  let? d_2 := pydiv (h_2s - h_1) (n_c_steam c) in
  let h_2 := h_1 + d_2 in
  let? s_2 := PropsSI "S" "P" p_2 "H" h_2 steam in
  let? T_2 := PropsSI "T" "P" p_2 "H" h_2 steam in
  let? x_2 := PropsSI "Q" "P" p_2 "H" h_2 steam in
  let? ex_2 := specific_exergy steam h_2 s_2 p_0_default T_0_default in
  (* HRSG *)
  let? sol := fsolve (hrsg_equations c T_8 T_2 p_8 p_2 h_8 h_2)
                     (initial_guess c h_8 h_5 T_2 T_8) xtol in
  let '((Q_23, T_3, T_9), _) := sol in
  let h_3 := h_2 + npdiv Q_23 (m_dot_steam c) in
  let h_9 := h_8 - npdiv Q_23 (m_dot_gas c) in
  let p_3 := p_2 in
  let? s_3 := PropsSI "S" "P" p_3 "T" T_3 steam in
  let? x_3 := PropsSI "Q" "P" p_3 "T" T_3 steam in
  let? ex_3 := specific_exergy steam h_3 s_3 p_0_default T_0_default in
  let Q_89 := -1 * Q_23 in
  let? s_9 := PropsSI "S" "P" p_8 "H" h_9 gas in
  let? ex_9 := specific_exergy gas h_9 s_9 p_0_default T_0_default in
  let dT_hot_hrsg := T_8 - T_3 in
  let dT_cold_hrsg := T_9 - T_2 in
  let lmtd_hrsg := npdiv (dT_hot_hrsg - dT_cold_hrsg) (np_log (npdiv dT_hot_hrsg dT_cold_hrsg)) in
  (* steam turbine *)
  let p_4 := p_1 c in
  let? h_4s := PropsSI "H" "P" p_4 "S" s_3 steam in
  let? T_4s := PropsSI "T" "P" p_4 "S" s_3 steam in
  let h_4 := h_3 - (h_3 - h_4s) * n_t_steam c in
  let? s_4 := PropsSI "S" "P" p_4 "H" h_4 steam in
  let? T_4 := PropsSI "T" "P" p_4 "H" h_4 steam in
  let? x_4 := PropsSI "Q" "P" p_4 "H" h_4 steam in
  let? ex_4 := specific_exergy steam h_4 s_4 p_0_default T_0_default in
  (* condenser *)
  let Q_14 := m_dot_steam c * (h_4 - h_1) in
  let st := mk_state p_6 h_5 s_5 ex_5 h_6s T_6s h_6 s_6 T_6 ex_6
                     p_7 h_7 T_7 s_7 ex_7
                     p_8 h_8s T_8s h_8 s_8 T_8 ex_8
                     h_1 s_1 x_1 ex_1
                     p_2 h_2s T_2s h_2 s_2 T_2 x_2 ex_2
                     Q_23 T_3 T_9 h_3 h_9
                     p_3 s_3 x_3 ex_3 Q_89 s_9 ex_9
                     dT_hot_hrsg dT_cold_hrsg lmtd_hrsg
                     p_4 h_4s T_4s h_4 s_4 T_4 x_4 ex_4
                     Q_14 in
  (* process limits *)
  Some (st, check_limits c st).

(** The call [ccgt.calc_states()] as its caller sees it: the Python return
    value ([None]), the instance's new attributes and the logging stream, to
    which the method appends the records it emits. *)
Definition calc_states_call (c : config) (log : list log_record)
    : option (pyval * state * list log_record) :=
  let? r := calc_states c in
  Some (PyNone, r.1, log ++ r.2).

(** The attributes [calc_energy_exergy_balances] sets. *)
Record balances := mk_balances {
  W_56 : Q; W_78 : Q; W_12 : Q; W_34 : Q;
  W_gas : Q; W_steam : Q; W_total : Q;
  Ex_67 : Q; Ex_14 : Q; Ex_23 : Q;
  W_56_loss : Q; W_78_loss : Q; hrsg_loss : Q; gas_exhaust_loss : Q;
  W_12_loss : Q; W_34_loss : Q;
  eta_gas_th : Q; eta_steam_th : Q; eta_th : Q;
  eta_gas_th_max : Q; eta_steam_th_max : Q; eta_th_max : Q;
  eta_gas_ex : Q; eta_steam_ex : Q; eta_ex : Q
}.

(** [calc_energy_exergy_balances] up to the efficiencies (lines 319-373): the
    attributes it sets, or [None] when a Python float division among them
    raises.  The figure it then draws (pie charts, [savefig]) is not modelled;
    it can raise on its own (a negative wedge, a missing [Figures] directory)
    after these attributes are set, so no statement below says whether the
    call as a whole raises. *)
Definition calc_energy_exergy_balances (c : config) (st : state) : option balances :=
  let W_56 := m_dot_gas c * (h_6 st - h_5 st) in
  let W_78 := m_dot_gas c * (h_7 st - h_8 st) in
  let W_12 := m_dot_steam c * (h_2 st - h_1 st) in
  let W_34 := m_dot_steam c * (h_3 st - h_4 st) in
  let W_gas := W_78 - W_56 in
  let W_steam := W_34 - W_12 in
  let W_total := W_gas + W_steam in
  let Ex_67 := m_dot_gas c * (ex_7 st - ex_6 st) in
  let Ex_14 := m_dot_steam c * (ex_4 st - ex_1 st) in
  let Ex_23 := m_dot_steam c * (ex_3 st - ex_2 st) in
  let W_56_loss := m_dot_gas c * 298 * (s_6 st - s_5 st) in
  let W_78_loss := m_dot_gas c * 298 * (s_8 st - s_7 st) in
  let hrsg_loss := 298 * (m_dot_steam c * (s_3 st - s_2 st) + m_dot_gas c * (s_9 st - s_8 st)) in
  let? ex_exh := specific_exergy_at_state 101325 (T_9 st) (gas_fluid c) p_0_default T_0_default in
  let gas_exhaust_loss := m_dot_gas c * (ex_9 st - ex_exh) in
  let W_12_loss := m_dot_steam c * 298 * (s_2 st - s_1 st) in
  let W_34_loss := m_dot_steam c * 298 * (s_4 st - s_3 st) in
  let? eta_gas_th := pydiv W_gas (Q_67 c) in
  let eta_steam_th := npdiv W_steam (Q_23 st) in
  let eta_th := npdiv W_total (Q_67 c) in
  let? eta_gas_th_max := pydiv Ex_67 (Q_67 c) in
  let eta_steam_th_max := npdiv Ex_23 (Q_23 st) in
  let? eta_th_max := pydiv Ex_67 (Q_67 c) in
  let? eta_gas_ex := pydiv W_gas Ex_67 in
  let eta_steam_ex := npdiv W_steam Ex_23 in
  let eta_ex := npdiv W_total Ex_67 in
  Some (mk_balances W_56 W_78 W_12 W_34 W_gas W_steam W_total Ex_67 Ex_14 Ex_23
          W_56_loss W_78_loss hrsg_loss gas_exhaust_loss W_12_loss W_34_loss
          eta_gas_th eta_steam_th eta_th eta_gas_th_max eta_steam_th_max eta_th_max
          eta_gas_ex eta_steam_ex eta_ex).

(** [np.interp(x, [0, 1], [a, b])]: clamped to [a] left of 0 and to [b] from 1 on. *)
Definition np_interp01 (x a b : Q) : Q :=
  if Qltb x 0 then a
  else if Qle_bool 1 x then b
  else (b - a) / (1 - 0) * (x - 0) + a.

(** The attributes [calc_hrsg_pinch_point] sets. *)
Record pinch := mk_pinch { h_sat_wet : Q; h_sat_dry : Q; T_pinch : Q }.

(** The boiling-onset candidate [dT_wet] of [calc_hrsg_pinch_point]. *)
Definition dT_wet_of (st : state) (T_sat h_sat_wet : Q) : Q :=
  let x_steam h_steam := npdiv (h_steam - h_2 st) (h_3 st - h_2 st) in
  np_interp01 (x_steam h_sat_wet) (T_9 st) (T_8 st) - T_sat.

(** [calc_hrsg_pinch_point] (without the T-X figure). *)
Definition calc_hrsg_pinch_point (c : config) (st : state) : option pinch :=
  let? T_sat := PropsSI "T" "P" (p_2 st) "Q" 0 (steam_fluid c) in
  let? h_sat_wet := PropsSI "H" "P" (p_2 st) "Q" 0 (steam_fluid c) in
  let? h_sat_dry := PropsSI "H" "P" (p_2 st) "Q" 1 (steam_fluid c) in
  let dT_wet := dT_wet_of st T_sat h_sat_wet in
  let T_pinch := if Qltb (dT_hot_hrsg st) dT_wet then dT_hot_hrsg st else dT_wet in
  Some (mk_pinch h_sat_wet h_sat_dry T_pinch).

End CCGT.

(* ------------------------------------------------------------------ *)
(** ** Concrete instances of the external collaborators

    Rational stand-ins used to evaluate the model on concrete inputs: an
    ideal-gas-like "air" with constant cp = 1000 J/(kg K) and an entropy
    T/(p + 1436000), a "water" with cp = 4000 J/(kg K), entropy T/(p + 10^12)
    and a saturation line T_sat = 373 + p/10^5, reporting quality -1 (single
    phase) as CoolProp does; any other fluid raises. *)

Definition toy_gas (key : string) (v1 v2 : Q) : option Q :=
  let a := 1436000 in
  if String.eqb key "HPT" then Some (1000 * v2)
  else if String.eqb key "SPT" then Some (v2 / (v1 + a))
  else if String.eqb key "HPS" then Some (1000 * (v2 * (v1 + a)))
  else if String.eqb key "TPS" then Some (v2 * (v1 + a))
  else if String.eqb key "SPH" then Some (v2 / 1000 / (v1 + a))
  else if String.eqb key "TPH" then Some (v2 / 1000)
  else if String.eqb key "HTP" then Some (1000 * v1)
  else if String.eqb key "STP" then Some (v1 / (v2 + a))
  else None.

Definition toy_water (key : string) (v1 v2 : Q) : option Q :=
  let b := 1000000000000 in
  let T_sat p := 373 + p / 100000 in
  if String.eqb key "HPT" then Some (4000 * v2)
  else if String.eqb key "SPT" then Some (v2 / (v1 + b))
  else if String.eqb key "HPS" then Some (4000 * (v2 * (v1 + b)))
  else if String.eqb key "TPS" then Some (v2 * (v1 + b))
  else if String.eqb key "SPH" then Some (v2 / 4000 / (v1 + b))
  else if String.eqb key "TPH" then Some (v2 / 4000)
  else if String.eqb key "HTP" then Some (4000 * v1)
  else if String.eqb key "STP" then Some (v1 / (v2 + b))
  else if String.eqb key "QPT" then Some (-1)
  else if String.eqb key "QPH" then Some (-1)
  else if String.eqb key "TPQ" then Some (T_sat v1)
  else if String.eqb key "HPQ" then Some (4000 * T_sat v1 + 2000000 * v2)
  else None.

Definition toy_PropsSI (out in1 : string) (v1 : Q) (in2 : string) (v2 : Q) (fluid : string)
    : option Q :=
  let key := (out ++ in1 ++ in2)%string in
  if String.eqb fluid "air" then toy_gas key v1 v2
  else if String.eqb fluid "water" then toy_water key v1 v2
  else None.

(** [toy_PropsSI] extended to every input (0 where it has no value): a
    property provider under which no lookup raises. *)
Definition toy_PropsSI_total (out in1 : string) (v1 : Q) (in2 : string) (v2 : Q)
    (fluid : string) : option Q :=
  Some (match toy_PropsSI out in1 v1 in2 v2 fluid with Some v => v | None => 0 end).

(** A rational stand-in for the logarithm (its first-order expansion at 1). *)
Definition toy_log (x : Q) : Q := x - 1.

(** A root finder that evaluates [func] at the starting point and gives up
    there, reporting non-convergence (as [fsolve] does when it stops making
    progress). *)
Definition toy_fsolve (F : Q * Q * Q -> option (Q * Q * Q)) (x0 : Q * Q * Q) (tol : Q)
    : option ((Q * Q * Q) * bool) :=
  let? _ := F x0 in Some (x0, false).

(** The configuration of [CombinedCycleGasTurbine()] (all defaults). *)
Definition default_config : config :=
  mk_config 101325 ((27315 # 100) + 20) ((4 # 100) * 101325) (2979 # 10)
    "air" (10559 # 10) "water" (1503 # 10) 1045300000
    23 (209186 # 10000) 1000
    (85 # 100) (85 # 100) (85 # 100) (85 # 100) 1 5000000
    (1600 + 273) (620 + 273) (90 # 100) (200 * 101325) ((61 # 10000) * 101325).

Definition toy_run := calc_states toy_PropsSI toy_log toy_fsolve default_config.

(** A root finder that evaluates [func] at the starting point and answers the
    given vector, reporting convergence. *)
Definition fixed_fsolve (x : Q * Q * Q) (F : Q * Q * Q -> option (Q * Q * Q))
    (x0 : Q * Q * Q) (tol : Q) : option ((Q * Q * Q) * bool) :=
  let? _ := F x0 in Some (x, true).


(** The residuals of the three HRSG coupling equations at a solved state,
    written as the specification states them. *)
Definition hrsg_residuals PropsSI (np_log : Q -> Q) (c : config) (st : state) : option (Q * Q * Q) :=
  let r1 := Q_23 st - hrsg_f c * hrsg_ua c * ((T_8 st - T_3 st) - (T_9 st - T_2 st))
                      / np_log ((T_8 st - T_3 st) / (T_9 st - T_2 st)) in
  let? h9 := PropsSI "H" "P" (p_8 st) "T" (T_9 st) (gas_fluid c) in
  let? h3 := PropsSI "H" "P" (p_2 st) "T" (T_3 st) (steam_fluid c) in
  Some (r1, h9 - (h_8 st - Q_23 st / m_dot_gas c), h3 - (h_2 st + Q_23 st / m_dot_steam c)).

Definition residuals_within PropsSI np_log (tol : Q) (c : config) (st : state) : Prop :=
  match hrsg_residuals PropsSI np_log c st with
  | Some (r1, r2, r3) => Qabs r1 <= tol /\ Qabs r2 <= tol /\ Qabs r3 <= tol
  | None => False
  end.

(** The specific exergy of a (p, T, fluid) state as the specification
    states it: [(h - T_0 s) - (h_0 - T_0 s_0)], with [(h, s)] at (p, T) and
    [(h_0, s_0)] at the dead state; compared below with [specific_exergy_at_state]. *)
Definition spec_exergy_at_state PropsSI (p T : Q) (fluid : string) (p_0 T_0 : Q) : option Q :=
  let? h := PropsSI "H" "T" T "P" p fluid in
  let? s := PropsSI "S" "T" T "P" p fluid in
  let? h_0 := PropsSI "H" "T" T_0 "P" p_0 fluid in
  let? s_0 := PropsSI "S" "T" T_0 "P" p_0 fluid in
  Some ((h - T_0 * s) - (h_0 - T_0 * s_0)).

(** The default configuration with a steam mass flow of 400 kg/s. *)
Definition cex_config : config :=
  mk_config 101325 ((27315 # 100) + 20) ((4 # 100) * 101325) (2979 # 10)
    "air" (10559 # 10) "water" 400 1045300000
    23 (209186 # 10000) 1000
    (85 # 100) (85 # 100) (85 # 100) (85 # 100) 1 5000000
    (1600 + 273) (620 + 273) (90 # 100) (200 * 101325) ((61 # 10000) * 101325).

(** An HRSG solution of [cex_config] close to both energy balances under the
    rational property stand-ins: Q_23 = 300 MW, T_3 = 485 K, T_9 = 606 K. *)
Definition cex_run := calc_states toy_PropsSI toy_log (fixed_fsolve (300000000, 485, 606)) cex_config.

(* ================================================================== *)
(** ** Proofs *)

(** Peel the [let?] binds of an unfolded definition in hypothesis [H]. *)
Ltac peel H :=
  repeat (cbv beta iota zeta in H;
    match type of H with
    | match ?m with Some _ => _ | None => _ end = _ =>
        let E := fresh "E" in destruct m eqn:E; [|discriminate H]
    | match ?p with pair _ _ => _ end = _ => destruct p
    end).

Ltac invert_calc_states H :=
  unfold calc_states in H; peel H;
  injection H as <- <-.

Lemma pydiv_Some a b r : pydiv a b = Some r -> r = a / b.
Proof. unfold pydiv. destruct (Qeq_bool b 0); congruence. Qed.

Lemma divide_ideal_rise (d n : Q) : 0 < n <= 1 -> 0 <= d -> d <= d / n.
Proof.
  intros [Hn Hn1] Hd. apply Qle_shift_div_l; [exact Hn|]. nra.
Qed.

Lemma multiply_ideal_drop (d n : Q) : 0 <= n <= 1 -> 0 <= d -> d * n <= d.
Proof. intros [Hn Hn1] Hd. nra. Qed.

Ltac pydivs :=
  repeat match goal with E : pydiv _ _ = Some _ |- _ => apply pydiv_Some in E; subst end.

(** C3: at every rotating component [calc_states] uses one convention: the
    actual enthalpy rise of the work-absorbing devices (gas compressor, steam
    pump) is the ideal rise divided by the isentropic efficiency, hence at
    least the ideal rise when 0 < efficiency <= 1; the actual enthalpy drop of
    the work-producing devices (gas turbine, steam turbine) is the ideal drop
    times the efficiency, hence at most the ideal drop when 0 <= efficiency <= 1. *)
Theorem calc_states_rotating_convention PropsSI np_log fsolve c st recs :
  calc_states PropsSI np_log fsolve c = Some (st, recs) ->
  h_6 st = h_5 st + (h_6s st - h_5 st) / n_c_gas c /\
  h_2 st = h_1 st + (h_2s st - h_1 st) / n_c_steam c /\
  h_8 st = h_7 st - (h_7 st - h_8s st) * n_t_gas c /\
  h_4 st = h_3 st - (h_3 st - h_4s st) * n_t_steam c /\
  (0 < n_c_gas c <= 1 -> 0 <= h_6s st - h_5 st -> h_6s st - h_5 st <= h_6 st - h_5 st) /\
  (0 < n_c_steam c <= 1 -> 0 <= h_2s st - h_1 st -> h_2s st - h_1 st <= h_2 st - h_1 st) /\
  (0 <= n_t_gas c <= 1 -> 0 <= h_7 st - h_8s st -> h_7 st - h_8 st <= h_7 st - h_8s st) /\
  (0 <= n_t_steam c <= 1 -> 0 <= h_3 st - h_4s st -> h_3 st - h_4 st <= h_3 st - h_4s st).
Proof.
  intros H. invert_calc_states H. pydivs. cbn.
  repeat split; intros Hn Hd.
  - pose proof (divide_ideal_rise _ _ Hn Hd). set (k := (_ - _) / _) in *. lra.
  - pose proof (divide_ideal_rise _ _ Hn Hd). set (k := (_ - _) / _) in *. lra.
  - pose proof (multiply_ideal_drop _ _ Hn Hd). set (k := (_ - _) * _) in *. lra.
  - pose proof (multiply_ideal_drop _ _ Hn Hd). set (k := (_ - _) * _) in *. lra.
Qed.

Lemma Qabs_le_compat (x y t : Q) : x == y -> (Qabs x <= t <-> Qabs y <= t).
Proof. intros Hxy. rewrite Hxy. reflexivity. Qed.

(** On a completed run, the stored triple is the answer of [fsolve], and the
    HRSG equations hold at the stored state within [tol] exactly when that
    answer makes [hrsg_equations] vanish within [tol]. *)
Lemma calc_states_fsolve_answer PropsSI np_log fsolve c st recs :
  calc_states PropsSI np_log fsolve c = Some (st, recs) ->
  (exists converged : bool,
    fsolve (hrsg_equations PropsSI np_log c (T_8 st) (T_2 st) (p_8 st) (p_2 st) (h_8 st) (h_2 st))
           (initial_guess c (h_8 st) (h_5 st) (T_2 st) (T_8 st)) xtol
    = Some ((Q_23 st, T_3 st, T_9 st), converged)) /\
  (forall tol,
    residuals_within PropsSI np_log tol c st <->
    match hrsg_equations PropsSI np_log c (T_8 st) (T_2 st) (p_8 st) (p_2 st) (h_8 st) (h_2 st)
            (Q_23 st, T_3 st, T_9 st) with
    | Some (e1, e2, e3) => Qabs e1 <= tol /\ Qabs e2 <= tol /\ Qabs e3 <= tol
    | None => False
    end).
Proof.
  intros H. invert_calc_states H. split.
  - eexists. cbn. eassumption.
  - intros tol. cbn. unfold residuals_within, hrsg_residuals, hrsg_equations, npdiv. cbn.
    repeat match goal with |- context [PropsSI ?o ?i1 ?v1 ?i2 ?v2 ?fl] =>
             destruct (PropsSI o i1 v1 i2 v2 fl) end; cbv beta iota; try tauto.
    match goal with
    | |- (_ /\ Qabs ?b <= _ /\ Qabs ?c <= _) <-> (_ /\ Qabs ?b' <= _ /\ Qabs ?c' <= _) =>
        rewrite (Qabs_le_compat b b' tol) by ring; rewrite (Qabs_le_compat c c' tol) by ring
    end.
    tauto.
Qed.

(** When no property lookup raises, [fsolve] raises nothing once
    [hrsg_equations] can be evaluated at its starting point, and no Python
    float division has a zero divisor, [calc_states] completes, whatever
    answer [fsolve] gives. *)
Lemma calc_states_succeeds PropsSI np_log fsolve c :
  (forall o i1 v1 i2 v2 fl, PropsSI o i1 v1 i2 v2 fl <> None) ->
  ~ n_c_gas c == 0 -> ~ m_dot_gas c == 0 -> ~ r_p_turb c == 0 -> ~ n_c_steam c == 0 ->
  (forall F x0 tol, F x0 <> None -> fsolve F x0 tol <> None) ->
  exists st, calc_states PropsSI np_log fsolve c = Some (st, check_limits c st).
Proof.
  intros Htot Hc Hg Ht Hs Hf.
  unfold calc_states, specific_exergy, pydiv.
  repeat (cbv beta iota zeta;
    match goal with
    | |- context [Qeq_bool ?b 0] =>
        let E := fresh "E" in destruct (Qeq_bool b 0) eqn:E;
        [apply Qeq_bool_iff in E; exfalso; auto |]
    | |- context [PropsSI ?o ?i1 ?v1 ?i2 ?v2 ?fl] =>
        let E := fresh "E" in destruct (PropsSI o i1 v1 i2 v2 fl) eqn:E;
        [| exfalso; exact (Htot _ _ _ _ _ _ E)]
    | |- context [fsolve ?F ?x0 ?tol] =>
        let HF := fresh "HF" in
        assert (HF : F x0 <> None);
        [ unfold hrsg_equations, initial_guess; cbv beta iota zeta;
          repeat (match goal with
            | |- context [PropsSI ?o ?i1 ?v1 ?i2 ?v2 ?fl] =>
                let E := fresh "E" in destruct (PropsSI o i1 v1 i2 v2 fl) eqn:E;
                [| exfalso; exact (Htot _ _ _ _ _ _ E)]
            end; cbv beta iota zeta); discriminate
        | let E := fresh "E" in destruct (fsolve F x0 tol) as [[[[? ?] ?] ?]|] eqn:E;
          [| exfalso; exact (Hf _ _ _ HF E)] ]
    end).
  eexists. reflexivity.
Qed.

(** C1: whatever answer [fsolve] gives for [hrsg_equations] from
    [initial_guess] with [xtol=1e-6], converged or not and whatever its
    residuals, [calc_states] stores it as (Q_23, T_3, T_9) and completes,
    provided no property lookup raises, [fsolve] itself raises nothing, and
    n_c_gas, m_dot_gas, r_p_turb, n_c_steam and m_dot_steam are non-zero
    (with m_dot_steam = 0 numpy makes h_3 infinite and later lookups fail).
    The HRSG equations then hold at the stored state within a tolerance
    exactly when that answer makes [hrsg_equations] vanish within it: no
    residual check is made. *)
Theorem calc_states_stores_fsolve_output PropsSI np_log fsolve c :
  (forall o i1 v1 i2 v2 fl, PropsSI o i1 v1 i2 v2 fl <> None) ->
  ~ n_c_gas c == 0 -> ~ m_dot_gas c == 0 -> ~ r_p_turb c == 0 ->
  ~ n_c_steam c == 0 -> ~ m_dot_steam c == 0 ->
  (forall F x0 tol, F x0 <> None -> fsolve F x0 tol <> None) ->
  exists st (converged : bool),
    calc_states PropsSI np_log fsolve c = Some (st, check_limits c st) /\
    fsolve (hrsg_equations PropsSI np_log c (T_8 st) (T_2 st) (p_8 st) (p_2 st) (h_8 st) (h_2 st))
           (initial_guess c (h_8 st) (h_5 st) (T_2 st) (T_8 st)) xtol
    = Some ((Q_23 st, T_3 st, T_9 st), converged) /\
    (forall tol,
      residuals_within PropsSI np_log tol c st <->
      match hrsg_equations PropsSI np_log c (T_8 st) (T_2 st) (p_8 st) (p_2 st) (h_8 st) (h_2 st)
              (Q_23 st, T_3 st, T_9 st) with
      | Some (e1, e2, e3) => Qabs e1 <= tol /\ Qabs e2 <= tol /\ Qabs e3 <= tol
      | None => False
      end).
Proof.
  intros Htot Hc Hg Ht Hs _ Hf.
  destruct (calc_states_succeeds PropsSI np_log fsolve c Htot Hc Hg Ht Hs Hf) as [st Hst].
  destruct (calc_states_fsolve_answer _ _ _ _ _ _ Hst) as [[conv Hconv] Hres].
  exists st, conv. split; [exact Hst|]. split; [exact Hconv | exact Hres].
Qed.





(** Each [ex_n] stored by [calc_states] is what [specific_exergy_at_point(n)]
    recomputes from the stored [h_n], [s_n] against the default dead state. *)
Lemma calc_states_exergy_roundtrip PropsSI np_log fsolve c st recs (n : nat) :
  calc_states PropsSI np_log fsolve c = Some (st, recs) ->
  (1 <= n <= 9)%nat ->
  specific_exergy_at_point PropsSI c st n p_0_default T_0_default =
  attr_hs st n ≫= fun _ =>
    Some (match n with
          | 1%nat => ex_1 st | 2%nat => ex_2 st | 3%nat => ex_3 st | 4%nat => ex_4 st
          | 5%nat => ex_5 st | 6%nat => ex_6 st | 7%nat => ex_7 st | 8%nat => ex_8 st
          | _ => ex_9 st
          end).
Proof.
  intros H Hn. invert_calc_states H.
  destruct n as [|[|[|[|[|[|[|[|[|[|n]]]]]]]]]]; try lia; cbn; assumption.
Qed.

(** C4: [specific_exergy_at_state] weighs the entropy of the state by the
    state's own temperature [T] instead of the dead-state temperature [T_0]:
    its value is the dead-state formula plus [(T_0 - T) * s]. *)
Theorem specific_exergy_at_state_uses_T PropsSI p T fluid p_0 T_0 h s h_0 s_0 :
  PropsSI "H" "T" T "P" p fluid = Some h ->
  PropsSI "S" "T" T "P" p fluid = Some s ->
  PropsSI "H" "T" T_0 "P" p_0 fluid = Some h_0 ->
  PropsSI "S" "T" T_0 "P" p_0 fluid = Some s_0 ->
  specific_exergy PropsSI fluid h s p_0 T_0 = Some ((h - T_0 * s) - (h_0 - T_0 * s_0)) /\
  exists ex, specific_exergy_at_state PropsSI p T fluid p_0 T_0 = Some ex /\
    ex == (h - T_0 * s) - (h_0 - T_0 * s_0) + (T_0 - T) * s.
Proof.
  intros Hh Hs Hh0 Hs0. unfold specific_exergy, specific_exergy_at_state.
  rewrite Hh, Hs, Hh0, Hs0. split; [reflexivity|].
  eexists. split; [reflexivity|]. ring.
Qed.

(** C5: the exergy destruction rates use the literal 298 K, not the dead-state
    temperature [T_0 = 298.15 K] of the specific exergies; with positive mass
    flow and entropy generation the compressor value is therefore strictly
    below [m_dot_gas * T_0 * (s_6 - s_5)]. *)
Theorem exergy_destruction_uses_298 PropsSI c st b :
  calc_energy_exergy_balances PropsSI c st = Some b ->
  W_56_loss b = m_dot_gas c * 298 * (s_6 st - s_5 st) /\
  W_78_loss b = m_dot_gas c * 298 * (s_8 st - s_7 st) /\
  hrsg_loss b = 298 * (m_dot_steam c * (s_3 st - s_2 st) + m_dot_gas c * (s_9 st - s_8 st)) /\
  W_12_loss b = m_dot_steam c * 298 * (s_2 st - s_1 st) /\
  W_34_loss b = m_dot_steam c * 298 * (s_4 st - s_3 st) /\
  (0 < m_dot_gas c -> s_5 st < s_6 st ->
     W_56_loss b < m_dot_gas c * T_0_default * (s_6 st - s_5 st)).
Proof.
  intros H. unfold calc_energy_exergy_balances in H. peel H. injection H as <-. cbn.
  repeat split. intros Hm Hs. unfold T_0_default.
  assert (0 < s_6 st - s_5 st) by lra.
  assert (0 < m_dot_gas c * (s_6 st - s_5 st)) by nra.
  nra.
Qed.

Lemma Qltb_true a b : Qltb a b = true <-> a < b.
Proof.
  unfold Qltb. rewrite negb_true_iff. split.
  - intros H. apply Qnot_le_lt. intros H'. apply Qle_bool_iff in H'. congruence.
  - intros H. destruct (Qle_bool b a) eqn:E; [|reflexivity].
    apply Qle_bool_iff in E. exfalso. apply (Qlt_not_le _ _ H E).
Qed.

Lemma Qltb_false a b : Qltb a b = false <-> b <= a.
Proof.
  unfold Qltb. rewrite negb_false_iff. apply Qle_bool_iff.
Qed.

Lemma calc_states_approaches PropsSI np_log fsolve c st recs :
  calc_states PropsSI np_log fsolve c = Some (st, recs) ->
  dT_hot_hrsg st = T_8 st - T_3 st /\ dT_cold_hrsg st = T_9 st - T_2 st /\ p_3 st = p_2 st.
Proof. intros H. invert_calc_states H. cbn. auto. Qed.

(** C6: [calc_hrsg_pinch_point] reports the smaller of the hot-end approach
    [T_8 - T_3] and the boiling-onset approach [dT_wet] (the gas temperature
    interpolated, with clamping, at the progress coordinate of the saturated
    liquid, minus the boiling temperature); so the pinch is at most each of
    them.  Nothing relates it to the cold-end approach. *)
Theorem pinch_is_min_of_two_candidates PropsSI np_log fsolve c st recs r :
  calc_states PropsSI np_log fsolve c = Some (st, recs) ->
  calc_hrsg_pinch_point PropsSI c st = Some r ->
  exists T_sat,
    PropsSI "T" "P" (p_2 st) "Q" 0 (steam_fluid c) = Some T_sat /\
    PropsSI "H" "P" (p_2 st) "Q" 0 (steam_fluid c) = Some (h_sat_wet r) /\
    T_pinch r = (if Qltb (T_8 st - T_3 st) (dT_wet_of st T_sat (h_sat_wet r))
                 then T_8 st - T_3 st else dT_wet_of st T_sat (h_sat_wet r)) /\
    T_pinch r <= T_8 st - T_3 st /\
    T_pinch r <= dT_wet_of st T_sat (h_sat_wet r).
Proof.
  intros Hc Hp. destruct (calc_states_approaches _ _ _ _ _ _ Hc) as [Hhot _].
  unfold calc_hrsg_pinch_point in Hp. peel Hp. injection Hp as <-. cbn.
  rewrite Hhot. eexists. split; [reflexivity|]. split; [reflexivity|].
  destruct (Qltb (T_8 st - T_3 st) _) eqn:Hlt; split; try reflexivity.
  - apply Qltb_true in Hlt. split; [apply Qle_refl | apply Qlt_le_weak; exact Hlt].
  - apply Qltb_false in Hlt. split; [exact Hlt | apply Qle_refl].
Qed.

Lemma exergy_ratio_bound (w q e : Q) :
  0 < w -> 0 < q -> 0 < e -> e / q <= 1 -> w / q <= w / e.
Proof.
  intros Hw Hq He Hr.
  assert (Heq : e <= q).
  { assert (Hk : e == (e / q) * q) by (field; intros E; rewrite E in Hq; discriminate).
    rewrite Hk. set (k := e / q) in *. nra. }
  apply Qle_shift_div_r; [exact Hq|].
  assert (Hm : w == (w / e) * e) by (field; intros E; rewrite E in He; discriminate).
  assert (Hpos : 0 < w / e) by (apply Qlt_shift_div_l; [exact He | lra]).
  set (m := w / e) in *. rewrite Hm at 1. nra.
Qed.

(** C7: for the gas cycle, the steam cycle and the plant, when the net power,
    the heat input and the exergy input are positive and the maximum possible
    thermal efficiency is at most 1, the exergy efficiency is at least the
    thermal efficiency. *)
Theorem exergy_efficiency_ge_thermal PropsSI c st b :
  calc_energy_exergy_balances PropsSI c st = Some b ->
  (0 < W_gas b -> 0 < Q_67 c -> 0 < Ex_67 b -> eta_gas_th_max b <= 1 ->
     eta_gas_th b <= eta_gas_ex b) /\
  (0 < W_steam b -> 0 < Q_23 st -> 0 < Ex_23 b -> eta_steam_th_max b <= 1 ->
     eta_steam_th b <= eta_steam_ex b) /\
  (0 < W_total b -> 0 < Q_67 c -> 0 < Ex_67 b -> eta_th_max b <= 1 ->
     eta_th b <= eta_ex b).
Proof.
  intros H. unfold calc_energy_exergy_balances in H. peel H. pydivs.
  injection H as <-. cbn. unfold npdiv.
  repeat split; intros; apply exergy_ratio_bound; assumption.
Qed.

(** The five process limits are read only by the checks at the end of
    [calc_states]: replacing them changes nothing else. *)
Lemma calc_states_with_limits PropsSI np_log fsolve c t7 t3 x4 p3 p4 :
  calc_states PropsSI np_log fsolve (with_limits c t7 t3 x4 p3 p4) =
  option_map (fun r => (r.1, check_limits (with_limits c t7 t3 x4 p3 p4) r.1))
    (calc_states PropsSI np_log fsolve c).
Proof.
  unfold calc_states, with_limits, hrsg_equations, initial_guess.
  cbv beta iota zeta delta [p_5 T_5 p_1 T_1 gas_fluid m_dot_gas steam_fluid m_dot_steam Q_67
    r_p_comp r_p_turb r_p_pump n_c_gas n_t_gas n_c_steam n_t_steam hrsg_f hrsg_ua].
  repeat (cbv beta iota zeta;
    match goal with
    | |- context [match ?m with Some _ => _ | None => _ end] => destruct m
    | |- context [match ?p with pair _ _ => _ end] => destruct p
    end).
  all: reflexivity.
Qed.

(** C8: the limit checks run on the completed state and never abort: whatever
    the five limits, the call succeeds exactly when the solve with any other
    limits does, with the same state; it returns [None] and appends to the
    logging stream exactly the warnings of the breached limits; when the
    condenser-inlet quality is the only breach, that is the single erosion
    warning. *)
Theorem limit_checks_logged PropsSI np_log fsolve c t7 t3 x4 p3 p4 log :
  calc_states_call PropsSI np_log fsolve (with_limits c t7 t3 x4 p3 p4) log =
    option_map (fun r => (PyNone, r.1, log ++ check_limits (with_limits c t7 t3 x4 p3 p4) r.1))
      (calc_states PropsSI np_log fsolve c) /\
  (forall st recs,
     calc_states PropsSI np_log fsolve (with_limits c t7 t3 x4 p3 p4) = Some (st, recs) ->
     T_7 st <= t7 -> T_3 st <= t3 -> x_4 st < x4 -> p_3 st <= p3 -> p4 <= p_4 st ->
     recs = [WarnX4 (x_4 st) x4]).
Proof.
  split.
  - unfold calc_states_call. rewrite calc_states_with_limits.
    destruct (calc_states PropsSI np_log fsolve c) as [[st recs]|]; reflexivity.
  - intros st recs H H7 H3 Hx Hp3 Hp4.
    assert (Hr : recs = check_limits (with_limits c t7 t3 x4 p3 p4) st).
    { invert_calc_states H. reflexivity. }
    subst recs. unfold check_limits.
    change (max_t7 (with_limits c t7 t3 x4 p3 p4)) with t7.
    change (max_t3 (with_limits c t7 t3 x4 p3 p4)) with t3.
    change (min_x4 (with_limits c t7 t3 x4 p3 p4)) with x4.
    change (max_p_hrsg_steam (with_limits c t7 t3 x4 p3 p4)) with p3.
    change (min_p_cond (with_limits c t7 t3 x4 p3 p4)) with p4.
    apply Qltb_false in H7, H3, Hp3, Hp4. apply Qltb_true in Hx.
    rewrite H7, H3, Hx, Hp3, Hp4. reflexivity.
Qed.


Lemma set_attrs_lookup_other items kw obj log k :
  k ∉ map (fun it => normalize_key it.1) items ->
  (set_attrs items kw obj log).1 !! k = obj !! k.
Proof.
  revert obj log. induction items as [|[dk dv] rest IH]; intros obj log Hk; [reflexivity|].
  cbn in Hk. apply not_elem_of_cons in Hk as [Hne Hk]. cbn.
  destruct (kw !! normalize_key dk); rewrite IH by exact Hk;
    apply lookup_insert_ne; congruence.
Qed.

Lemma set_attrs_lookup items kw obj log dk dv :
  NoDup (map (fun it => normalize_key it.1) items) ->
  (dk, dv) ∈ items ->
  (set_attrs items kw obj log).1 !! normalize_key dk =
  Some (match kw !! normalize_key dk with Some v => v | None => dv end).
Proof.
  revert obj log. induction items as [|[dk' dv'] rest IH]; intros obj log Hnd Hin.
  - apply not_elem_of_nil in Hin as [].
  - cbn in Hnd. apply NoDup_cons in Hnd as [Hnot Hnd].
    apply elem_of_cons in Hin as [Heq|Hin].
    + injection Heq as <- <-. cbn.
      destruct (kw !! normalize_key dk);
        rewrite set_attrs_lookup_other by exact Hnot; apply lookup_insert_eq.
    + cbn. destruct (kw !! normalize_key dk'); apply IH; assumption.
Qed.

Lemma set_attrs_insert_other items kw obj log k v :
  k ∉ map (fun it => normalize_key it.1) items ->
  set_attrs items (<[k := v]> kw) obj log = set_attrs items kw obj log.
Proof.
  revert obj log. induction items as [|[dk dv] rest IH]; intros obj log Hk; [reflexivity|].
  cbn in Hk. apply not_elem_of_cons in Hk as [Hne Hk]. cbn.
  rewrite lookup_insert_ne by congruence.
  destruct (kw !! normalize_key dk); apply IH; exact Hk.
Qed.

Lemma recognized_names_NoDup : NoDup recognized_names.
Proof. apply (bool_decide_unpack _). vm_compute. reflexivity. Qed.

Lemma attrs_from_kwargs_or_default_Some kw obj log :
  kw !! "self" = None ->
  attrs_from_kwargs_or_default kw obj log = Some (set_attrs def_items kw obj log).
Proof. intros H. unfold attrs_from_kwargs_or_default. rewrite H. reflexivity. Qed.

Lemma CombinedCycleGasTurbine_Some kw log :
  kw !! "self" = None ->
  CombinedCycleGasTurbine kw log = Some (set_attrs def_items kw ∅ log).
Proof.
  intros H. unfold CombinedCycleGasTurbine. rewrite H.
  apply attrs_from_kwargs_or_default_Some. exact H.
Qed.

(** C9: with no keyword arguments the instance holds the class defaults: gas
    inlet 101325 Pa at 273.15 + 20 = 293.15 K, compressor ratio 23, the four
    isentropic efficiencies 0.85, combustor heat 1.0453e9 W and steam flow
    150.3 kg/s, and the solver reads exactly [default_config]; for any
    keyword arguments without the key [self] (which raises [TypeError]), each
    recognised (normalised) name takes the supplied value if there is one
    and its default otherwise. *)
Theorem default_configuration_values :
  (exists r,
    CombinedCycleGasTurbine ∅ [] = Some r /\
    r.1 !! "p_5" = Some (PyInt 101325) /\
    r.1 !! "T_5" = Some (PyFloat ((27315 # 100) + 20)) /\
    r.1 !! "r_p_comp" = Some (PyInt 23) /\
    r.1 !! "n_c_gas" = Some (PyFloat (85 # 100)) /\
    r.1 !! "n_t_gas" = Some (PyFloat (85 # 100)) /\
    r.1 !! "n_c_steam" = Some (PyFloat (85 # 100)) /\
    r.1 !! "n_t_steam" = Some (PyFloat (85 # 100)) /\
    r.1 !! "Q_67" = Some (PyFloat 1045300000) /\
    r.1 !! "m_dot_steam" = Some (PyFloat (1503 # 10)) /\
    to_config r.1 = Some default_config) /\
  (forall kw log dk dv, kw !! "self" = None -> (dk, dv) ∈ def_items ->
     exists r, CombinedCycleGasTurbine kw log = Some r /\
       r.1 !! normalize_key dk =
       Some (match kw !! normalize_key dk with Some v => v | None => dv end)).
Proof.
  split.
  - exists (set_attrs def_items ∅ ∅ []).
    split; [apply CombinedCycleGasTurbine_Some; reflexivity|].
    repeat match goal with |- _ /\ _ => split end; vm_compute; reflexivity.
  - intros kw log dk dv Hself Hin. exists (set_attrs def_items kw ∅ log).
    split; [apply CombinedCycleGasTurbine_Some; exact Hself|].
    apply set_attrs_lookup; [apply recognized_names_NoDup | exact Hin].
Qed.


(** C10: a keyword argument whose key is neither a recognised normalised
    name nor [self] changes nothing; the temperature limits are recognised as
    [max_t7] and [max_t3] only, so [max_T7] and [max_T3] leave them at their
    defaults. *)
Theorem unrecognized_kwargs_ignored :
  (forall (kw : gmap string pyval) k v log, k ∉ recognized_names -> k <> "self" ->
     CombinedCycleGasTurbine (<[k := v]> kw) log = CombinedCycleGasTurbine kw log) /\
  ("max_t7" ∈ recognized_names) /\ ("max_t3" ∈ recognized_names) /\
  ("max_T7" ∉ recognized_names) /\ ("max_T3" ∉ recognized_names) /\
  (forall v w log, exists r,
     CombinedCycleGasTurbine {[ "max_T7" := v; "max_T3" := w ]} log = Some r /\
     r.1 !! "max_t7" = Some (PyInt (1600 + 273)) /\
     r.1 !! "max_t3" = Some (PyInt (620 + 273))).
Proof.
  assert (Hign : forall (kw : gmap string pyval) k v log, k ∉ recognized_names -> k <> "self" ->
     CombinedCycleGasTurbine (<[k := v]> kw) log = CombinedCycleGasTurbine kw log).
  { intros kw k v log Hk Hs. unfold CombinedCycleGasTurbine, attrs_from_kwargs_or_default.
    rewrite !lookup_insert_ne by exact Hs.
    destruct (kw !! "self"); [reflexivity|].
    rewrite set_attrs_insert_other by exact Hk. reflexivity. }
  assert (H7 : "max_T7" ∉ recognized_names)
    by (apply (bool_decide_unpack _); vm_compute; reflexivity).
  assert (H3 : "max_T3" ∉ recognized_names)
    by (apply (bool_decide_unpack _); vm_compute; reflexivity).
  split; [exact Hign|].
  split; [apply (bool_decide_unpack _); vm_compute; reflexivity|].
  split; [apply (bool_decide_unpack _); vm_compute; reflexivity|].
  split; [exact H7|]. split; [exact H3|].
  intros v w log.
  change {[ "max_T7" := v; "max_T3" := w ]} with
    (<[ "max_T7" := v ]> (<[ "max_T3" := w ]> (∅ : gmap string pyval))).
  rewrite Hign by first [exact H7 | discriminate].
  rewrite Hign by first [exact H3 | discriminate].
  exists (set_attrs def_items ∅ ∅ log).
  split; [apply CombinedCycleGasTurbine_Some; reflexivity|].
  split; vm_compute; reflexivity.
Qed.


(* ------------------------------------------------------------------ *)
(** ** Evaluations on concrete inputs *)

(** Evaluate the option [t] and record the equation [E : t = Some v]. *)
Ltac compute_some t E :=
  let v := eval vm_compute in t in
  match v with Some ?x => assert (E : t = Some x) by (vm_compute; reflexivity) end.

(** Decide a closed rational comparison by evaluation. *)
Ltac qdecide :=
  first [ apply Qle_bool_imp_le; vm_compute; reflexivity
        | vm_compute; reflexivity ].

(** C3 on the default configuration: the conventions hold on its run. *)
Lemma calc_states_rotating_convention_witness :
  exists st recs, toy_run = Some (st, recs) /\
  h_6 st = h_5 st + (h_6s st - h_5 st) / n_c_gas default_config /\
  h_2 st = h_1 st + (h_2s st - h_1 st) / n_c_steam default_config /\
  h_8 st = h_7 st - (h_7 st - h_8s st) * n_t_gas default_config /\
  h_4 st = h_3 st - (h_3 st - h_4s st) * n_t_steam default_config /\
  h_6s st - h_5 st <= h_6 st - h_5 st /\ h_7 st - h_8 st <= h_7 st - h_8s st.
Proof.
  compute_some toy_run E.
  match type of E with _ = Some (?st, ?recs) => exists st, recs end.
  split; [exact E|].
  destruct (calc_states_rotating_convention _ _ _ _ _ _ E)
    as (H6 & H2 & H8 & H4 & Hc & _ & Ht & _).
  split; [exact H6|]. split; [exact H2|]. split; [exact H8|]. split; [exact H4|].
  split; [apply Hc; [split; qdecide | qdecide] | apply Ht; [split; qdecide | qdecide]].
Defined.

(** Hypotheses of C1 and C2 discharged for the default configuration, with a
    property library that never raises and a root finder that stops at its
    starting point. *)
Ltac discharge_solve_hyps :=
  first
    [ intros; unfold toy_PropsSI_total; discriminate
    | let Hq := fresh "Hq" in intros Hq; vm_compute in Hq; discriminate Hq
    | let F := fresh "F" in let x0 := fresh "x0" in let tol := fresh "tol" in
      let H := fresh "H" in
      intros F x0 tol H; unfold toy_fsolve; destruct (F x0); [discriminate | contradiction] ].

(** C1 on the default configuration: the solve completes and stores the
    starting point, which the root finder reports as not converged. *)
Lemma calc_states_stores_fsolve_output_witness :
  exists st (converged : bool),
    calc_states toy_PropsSI_total toy_log toy_fsolve default_config
      = Some (st, check_limits default_config st) /\
    toy_fsolve (hrsg_equations toy_PropsSI_total toy_log default_config (T_8 st) (T_2 st)
                  (p_8 st) (p_2 st) (h_8 st) (h_2 st))
      (initial_guess default_config (h_8 st) (h_5 st) (T_2 st) (T_8 st)) xtol
    = Some ((Q_23 st, T_3 st, T_9 st), converged) /\
    converged = false.
Proof.
  destruct (calc_states_stores_fsolve_output toy_PropsSI_total toy_log toy_fsolve default_config)
    as (st & conv & Hst & Hf & _); try discharge_solve_hyps.
  exists st, conv. split; [exact Hst|]. split; [exact Hf|].
  unfold toy_fsolve in Hf.
  match type of Hf with context [match ?m with Some _ => _ | None => _ end] => destruct m end.
  - inversion Hf. reflexivity.
  - discriminate Hf.
Defined.

(** C1 fails: on the default configuration, with a root finder that stops at
    its starting point, the stored steam-side residual is far above 1e-6. *)
Lemma calc_states_residual_exceeds_tolerance :
  exists st recs r1 r2 r3,
    toy_run = Some (st, recs) /\
    hrsg_residuals toy_PropsSI toy_log default_config st = Some (r1, r2, r3) /\
    xtol < Qabs r3 /\
    ~ residuals_within toy_PropsSI toy_log xtol default_config st.
Proof.
  compute_some toy_run E.
  match type of E with _ = Some (?st, ?recs) => exists st, recs end.
  match type of E with _ = Some (?st, _) =>
    compute_some (hrsg_residuals toy_PropsSI toy_log default_config st) E2 end.
  match type of E2 with _ = Some (?r1, ?r2, ?r3) => exists r1, r2, r3 end.
  split; [exact E|]. split; [exact E2|].
  match type of E2 with _ = Some (_, _, ?r3) =>
    assert (Hlt : xtol < Qabs r3) by qdecide end.
  split; [exact Hlt|].
  unfold residuals_within. rewrite E2. intros (_ & _ & H3).
  exact (Qlt_not_le _ _ Hlt H3).
Defined.



(** C4 on the input p = 101325 Pa, T = 400 K, air, default dead state. *)
Lemma specific_exergy_at_state_uses_T_witness :
  exists h s h_0 s_0 ex,
    toy_PropsSI "H" "T" 400 "P" 101325 "air" = Some h /\
    toy_PropsSI "S" "T" 400 "P" 101325 "air" = Some s /\
    toy_PropsSI "H" "T" T_0_default "P" p_0_default "air" = Some h_0 /\
    toy_PropsSI "S" "T" T_0_default "P" p_0_default "air" = Some s_0 /\
    specific_exergy_at_state toy_PropsSI 101325 400 "air" p_0_default T_0_default = Some ex /\
    ex == (h - T_0_default * s) - (h_0 - T_0_default * s_0) + (T_0_default - 400) * s.
Proof.
  compute_some (toy_PropsSI "H" "T" 400 "P" 101325 "air") Hh.
  compute_some (toy_PropsSI "S" "T" 400 "P" 101325 "air") Hs.
  compute_some (toy_PropsSI "H" "T" T_0_default "P" p_0_default "air") Hh0.
  compute_some (toy_PropsSI "S" "T" T_0_default "P" p_0_default "air") Hs0.
  destruct (specific_exergy_at_state_uses_T _ _ _ _ _ _ _ _ _ _ Hh Hs Hh0 Hs0)
    as [_ [ex [Hex Heq]]].
  eexists _, _, _, _, ex.
  split; [exact Hh|]. split; [exact Hs|]. split; [exact Hh0|]. split; [exact Hs0|].
  split; [exact Hex | exact Heq].
Defined.

(** C4 fails on that input: the value differs from the dead-state formula. *)
Lemma specific_exergy_at_state_diverges :
  exists ex ex_spec,
    specific_exergy_at_state toy_PropsSI 101325 400 "air" p_0_default T_0_default = Some ex /\
    spec_exergy_at_state toy_PropsSI 101325 400 "air" p_0_default T_0_default = Some ex_spec /\
    ~ ex == ex_spec.
Proof.
  compute_some (specific_exergy_at_state toy_PropsSI 101325 400 "air" p_0_default T_0_default) E1.
  compute_some (spec_exergy_at_state toy_PropsSI 101325 400 "air" p_0_default T_0_default) E2.
  match type of E1 with _ = Some ?a => exists a end.
  match type of E2 with _ = Some ?b => exists b end.
  split; [exact E1|]. split; [exact E2|].
  intros H. vm_compute in H. discriminate H.
Defined.

(** C5 on the default configuration: the compressor loss is below the value
    with the dead-state temperature. *)
Lemma exergy_destruction_uses_298_witness :
  exists st recs b,
    toy_run = Some (st, recs) /\
    calc_energy_exergy_balances toy_PropsSI default_config st = Some b /\
    0 < m_dot_gas default_config /\ s_5 st < s_6 st /\
    W_56_loss b < m_dot_gas default_config * T_0_default * (s_6 st - s_5 st).
Proof.
  compute_some toy_run E.
  match type of E with _ = Some (?st, ?recs) => exists st, recs;
    compute_some (calc_energy_exergy_balances toy_PropsSI default_config st) Eb end.
  match type of Eb with _ = Some ?b => exists b end.
  split; [exact E|]. split; [exact Eb|].
  assert (Hm : 0 < m_dot_gas default_config) by qdecide.
  match type of E with _ = Some (?st, _) =>
    assert (Hs : s_5 st < s_6 st) by qdecide end.
  split; [exact Hm|]. split; [exact Hs|].
  destruct (exergy_destruction_uses_298 _ _ _ _ Eb) as (_ & _ & _ & _ & _ & H).
  exact (H Hm Hs).
Defined.

(** C6 on [cex_config]: the pinch is at most the hot-end approach. *)
Lemma pinch_is_min_of_two_candidates_witness :
  exists st recs r,
    cex_run = Some (st, recs) /\
    calc_hrsg_pinch_point toy_PropsSI cex_config st = Some r /\
    T_pinch r <= T_8 st - T_3 st.
Proof.
  compute_some cex_run E.
  match type of E with _ = Some (?st, ?recs) => exists st, recs;
    compute_some (calc_hrsg_pinch_point toy_PropsSI cex_config st) Ep end.
  match type of Ep with _ = Some ?r => exists r end.
  split; [exact E|]. split; [exact Ep|].
  destruct (pinch_is_min_of_two_candidates _ _ _ _ _ _ _ E Ep) as (T_sat & _ & _ & _ & H & _).
  exact H.
Defined.

(** C6 fails on [cex_config]: the reported pinch exceeds the cold-end approach. *)
Lemma pinch_exceeds_cold_end_approach :
  exists st recs r,
    cex_run = Some (st, recs) /\
    calc_hrsg_pinch_point toy_PropsSI cex_config st = Some r /\
    T_9 st - T_2 st < T_pinch r.
Proof.
  compute_some cex_run E.
  match type of E with _ = Some (?st, ?recs) => exists st, recs;
    compute_some (calc_hrsg_pinch_point toy_PropsSI cex_config st) Ep end.
  match type of Ep with _ = Some ?r => exists r end.
  split; [exact E|]. split; [exact Ep | qdecide].
Defined.

(** C7 on the default configuration: all three inequalities hold. *)
Lemma exergy_efficiency_ge_thermal_witness :
  exists st recs b,
    toy_run = Some (st, recs) /\
    calc_energy_exergy_balances toy_PropsSI default_config st = Some b /\
    eta_gas_th b <= eta_gas_ex b /\ eta_steam_th b <= eta_steam_ex b /\ eta_th b <= eta_ex b.
Proof.
  compute_some toy_run E.
  match type of E with _ = Some (?st, ?recs) => exists st, recs;
    compute_some (calc_energy_exergy_balances toy_PropsSI default_config st) Eb end.
  match type of Eb with _ = Some ?b => exists b end.
  split; [exact E|]. split; [exact Eb|].
  destruct (exergy_efficiency_ge_thermal _ _ _ _ Eb) as (Hg & Hs & Ht).
  split; [apply Hg; qdecide|]. split; [apply Hs; qdecide | apply Ht; qdecide].
Defined.

(** C8 on the default configuration, whose only breach is the quality x_4:
    the solve logs exactly the erosion warning. *)
Lemma limit_checks_logged_witness :
  exists st recs,
    toy_run = Some (st, recs) /\ recs = [WarnX4 (x_4 st) (min_x4 default_config)].
Proof.
  compute_some toy_run E.
  match type of E with _ = Some (?st, ?recs) => exists st, recs end.
  split; [exact E|].
  destruct (limit_checks_logged toy_PropsSI toy_log toy_fsolve default_config
              (max_t7 default_config) (max_t3 default_config) (min_x4 default_config)
              (max_p_hrsg_steam default_config) (min_p_cond default_config) []) as [_ H].
  apply H; [exact E | qdecide | qdecide | qdecide | qdecide | qdecide].
Defined.

(** C8 fails: with a limit breached the call returns [None], not a list of
    violations; the breach only reaches the logging stream. *)
Lemma limit_breach_returns_none :
  exists st log,
    calc_states_call toy_PropsSI toy_log toy_fsolve default_config [] = Some (PyNone, st, log) /\
    check_limits default_config st <> [] /\ log = check_limits default_config st.
Proof.
  compute_some (calc_states_call toy_PropsSI toy_log toy_fsolve default_config []) E.
  match type of E with _ = Some (_, ?st, ?log) => exists st, log end.
  split; [exact E|]. split; [vm_compute; discriminate | vm_compute; reflexivity].
Defined.

(** C9 fails: the default gas inlet temperature is 293.15 K, not 298.15 K. *)
Lemma default_T_5_is_293_15 :
  exists r q,
    CombinedCycleGasTurbine ∅ [] = Some r /\
    r.1 !! "T_5" = Some (PyFloat q) /\
    q == 29315 # 100 /\ ~ q == 29815 # 100.
Proof.
  exists (set_attrs def_items ∅ ∅ []), ((27315 # 100) + 20).
  split; [vm_compute; reflexivity|]. split; [vm_compute; reflexivity|].
  split; [vm_compute; reflexivity|]. intros H. vm_compute in H. discriminate H.
Defined.

(** C10 fails for the key [self]: it is not a recognised name, yet the call
    raises [TypeError] instead of ignoring it. *)
Lemma self_kwarg_raises :
  ("self" ∉ recognized_names) /\
  CombinedCycleGasTurbine {[ "self" := PyInt 1 ]} [] = None.
Proof.
  split; [apply (bool_decide_unpack _); vm_compute; reflexivity | vm_compute; reflexivity].
Defined.

(* ------------------------------------------------------------------ *)
(** ** Further properties of the model *)

Lemma pydiv_Some_ne a b r : pydiv a b = Some r -> ~ b == 0.
Proof.
  unfold pydiv. destruct (Qeq_bool b 0) eqn:E; [discriminate|].
  intros _. apply Qeq_bool_neq. exact E.
Qed.

(** Record the non-zero divisor of each successful Python division, then
    replace the division by its quotient. *)
Ltac pydivs_ne :=
  repeat match goal with
  | E : pydiv _ _ = Some _ |- _ =>
      pose proof (pydiv_Some_ne _ _ _ E); apply pydiv_Some in E; subst
  end.

Lemma specific_exergy_Some PropsSI fluid h s p_0 T_0 ex :
  specific_exergy PropsSI fluid h s p_0 T_0 = Some ex ->
  exists h_0 s_0,
    PropsSI "H" "T" T_0 "P" p_0 fluid = Some h_0 /\
    PropsSI "S" "T" T_0 "P" p_0 fluid = Some s_0 /\
    ex = (h - T_0 * s) - (h_0 - T_0 * s_0).
Proof.
  unfold specific_exergy.
  destruct (PropsSI "H" "T" T_0 "P" p_0 fluid) as [h_0|]; [|discriminate].
  destruct (PropsSI "S" "T" T_0 "P" p_0 fluid) as [s_0|]; [|discriminate].
  intros H. injection H as <-. eauto.
Qed.

(** The relations [calc_states] establishes between the attributes it sets. *)
Lemma calc_states_relations PropsSI np_log fsolve c st recs :
  calc_states PropsSI np_log fsolve c = Some (st, recs) ->
  ~ m_dot_gas c == 0 /\ ~ r_p_turb c == 0 /\
  h_7 st = h_6 st + Q_67 c / m_dot_gas c /\
  h_3 st = h_2 st + Q_23 st / m_dot_steam c /\
  h_9 st = h_8 st - Q_23 st / m_dot_gas c /\
  Q_89 st = -1 * Q_23 st /\
  Q_14 st = m_dot_steam c * (h_4 st - h_1 st) /\
  p_6 st = p_5 c * r_p_comp c /\ p_7 st = p_6 st /\ p_8 st = p_7 st / r_p_turb c /\
  p_2 st = p_1 c * r_p_pump c /\ p_3 st = p_2 st /\ p_4 st = p_1 c /\
  dT_hot_hrsg st = T_8 st - T_3 st /\ dT_cold_hrsg st = T_9 st - T_2 st /\
  lmtd_hrsg st = npdiv (dT_hot_hrsg st - dT_cold_hrsg st)
                       (np_log (npdiv (dT_hot_hrsg st) (dT_cold_hrsg st))) /\
  recs = check_limits c st.
Proof.
  intros H. invert_calc_states H. pydivs_ne. cbn.
  repeat (split; [assumption || reflexivity|]). reflexivity.
Qed.

(** The specific exergies [calc_states] stores, against the dead state of
    each fluid. *)
Lemma calc_states_exergies PropsSI np_log fsolve c st recs :
  calc_states PropsSI np_log fsolve c = Some (st, recs) ->
  exists hg sg hw sw,
    PropsSI "H" "T" T_0_default "P" p_0_default (gas_fluid c) = Some hg /\
    PropsSI "S" "T" T_0_default "P" p_0_default (gas_fluid c) = Some sg /\
    PropsSI "H" "T" T_0_default "P" p_0_default (steam_fluid c) = Some hw /\
    PropsSI "S" "T" T_0_default "P" p_0_default (steam_fluid c) = Some sw /\
    ex_5 st = (h_5 st - T_0_default * s_5 st) - (hg - T_0_default * sg) /\
    ex_6 st = (h_6 st - T_0_default * s_6 st) - (hg - T_0_default * sg) /\
    ex_7 st = (h_7 st - T_0_default * s_7 st) - (hg - T_0_default * sg) /\
    ex_8 st = (h_8 st - T_0_default * s_8 st) - (hg - T_0_default * sg) /\
    ex_9 st = (h_9 st - T_0_default * s_9 st) - (hg - T_0_default * sg) /\
    ex_1 st = (h_1 st - T_0_default * s_1 st) - (hw - T_0_default * sw) /\
    ex_2 st = (h_2 st - T_0_default * s_2 st) - (hw - T_0_default * sw) /\
    ex_3 st = (h_3 st - T_0_default * s_3 st) - (hw - T_0_default * sw) /\
    ex_4 st = (h_4 st - T_0_default * s_4 st) - (hw - T_0_default * sw).
Proof.
  intros H. invert_calc_states H.
  repeat match goal with
  | E : specific_exergy _ _ _ _ _ _ = Some _ |- _ =>
      apply specific_exergy_Some in E; destruct E as (? & ? & ? & ? & ->)
  end.
  cbn -[T_0_default p_0_default]. do 4 eexists.
  repeat split; first [eassumption | congruence].
Qed.

Lemma calc_energy_exergy_balances_Some PropsSI c st b :
  calc_energy_exergy_balances PropsSI c st = Some b ->
  ~ Q_67 c == 0 /\ ~ m_dot_gas c * (ex_7 st - ex_6 st) == 0 /\
  exists ex_exh,
    specific_exergy_at_state PropsSI 101325 (T_9 st) (gas_fluid c) p_0_default T_0_default
      = Some ex_exh /\
    b = mk_balances
      (m_dot_gas c * (h_6 st - h_5 st)) (m_dot_gas c * (h_7 st - h_8 st))
      (m_dot_steam c * (h_2 st - h_1 st)) (m_dot_steam c * (h_3 st - h_4 st))
      (m_dot_gas c * (h_7 st - h_8 st) - m_dot_gas c * (h_6 st - h_5 st))
      (m_dot_steam c * (h_3 st - h_4 st) - m_dot_steam c * (h_2 st - h_1 st))
      (m_dot_gas c * (h_7 st - h_8 st) - m_dot_gas c * (h_6 st - h_5 st) +
       (m_dot_steam c * (h_3 st - h_4 st) - m_dot_steam c * (h_2 st - h_1 st)))
      (m_dot_gas c * (ex_7 st - ex_6 st)) (m_dot_steam c * (ex_4 st - ex_1 st))
      (m_dot_steam c * (ex_3 st - ex_2 st))
      (m_dot_gas c * 298 * (s_6 st - s_5 st)) (m_dot_gas c * 298 * (s_8 st - s_7 st))
      (298 * (m_dot_steam c * (s_3 st - s_2 st) + m_dot_gas c * (s_9 st - s_8 st)))
      (m_dot_gas c * (ex_9 st - ex_exh))
      (m_dot_steam c * 298 * (s_2 st - s_1 st)) (m_dot_steam c * 298 * (s_4 st - s_3 st))
      ((m_dot_gas c * (h_7 st - h_8 st) - m_dot_gas c * (h_6 st - h_5 st)) / Q_67 c)
      (npdiv (m_dot_steam c * (h_3 st - h_4 st) - m_dot_steam c * (h_2 st - h_1 st)) (Q_23 st))
      (npdiv (m_dot_gas c * (h_7 st - h_8 st) - m_dot_gas c * (h_6 st - h_5 st) +
              (m_dot_steam c * (h_3 st - h_4 st) - m_dot_steam c * (h_2 st - h_1 st))) (Q_67 c))
      (m_dot_gas c * (ex_7 st - ex_6 st) / Q_67 c)
      (npdiv (m_dot_steam c * (ex_3 st - ex_2 st)) (Q_23 st))
      (m_dot_gas c * (ex_7 st - ex_6 st) / Q_67 c)
      ((m_dot_gas c * (h_7 st - h_8 st) - m_dot_gas c * (h_6 st - h_5 st)) /
       (m_dot_gas c * (ex_7 st - ex_6 st)))
      (npdiv (m_dot_steam c * (h_3 st - h_4 st) - m_dot_steam c * (h_2 st - h_1 st))
             (m_dot_steam c * (ex_3 st - ex_2 st)))
      (npdiv (m_dot_gas c * (h_7 st - h_8 st) - m_dot_gas c * (h_6 st - h_5 st) +
              (m_dot_steam c * (h_3 st - h_4 st) - m_dot_steam c * (h_2 st - h_1 st)))
             (m_dot_gas c * (ex_7 st - ex_6 st))).
Proof.
  intros H. unfold calc_energy_exergy_balances in H. peel H. pydivs_ne.
  injection H as <-. split; [assumption|]. split; [assumption|].
  eexists. split; reflexivity.
Qed.

Lemma check_limits_kinds c st :
  ((exists a b, In (WarnT7 a b) (check_limits c st)) <-> max_t7 c < T_7 st) /\
  ((exists a b, In (WarnT3 a b) (check_limits c st)) <-> max_t3 c < T_3 st) /\
  ((exists a b, In (WarnX4 a b) (check_limits c st)) <-> x_4 st < min_x4 c) /\
  ((exists a b, In (WarnP3 a b) (check_limits c st)) <-> max_p_hrsg_steam c < p_3 st) /\
  ((exists a b, In (WarnP4 a b) (check_limits c st)) <-> p_4 st < min_p_cond c) /\
  (length (check_limits c st) <= 5)%nat.
Proof.
  unfold check_limits.
  destruct (Qltb (max_t7 c) (T_7 st)) eqn:H7;
  destruct (Qltb (max_t3 c) (T_3 st)) eqn:H3;
  destruct (Qltb (x_4 st) (min_x4 c)) eqn:H4;
  destruct (Qltb (max_p_hrsg_steam c) (p_3 st)) eqn:HP3;
  destruct (Qltb (p_4 st) (min_p_cond c)) eqn:HP4;
  repeat match goal with
  | H : Qltb _ _ = true |- _ => apply Qltb_true in H
  | H : Qltb _ _ = false |- _ => apply Qltb_false in H
  end;
  cbn [app length];
  repeat match goal with |- _ /\ _ => split end;
  try lia;
  (split;
   [ intros (a & b & Hin); cbn in Hin;
     first [ assumption | exfalso; intuition discriminate ]
   | intros Hlt;
     first [ exfalso; eapply Qlt_not_le; eassumption
           | do 2 eexists; cbn; repeat (first [left; reflexivity | right]) ] ]).
Qed.

Lemma np_interp01_between x a b : a <= b -> a <= np_interp01 x a b <= b.
Proof.
  intros Hab. unfold np_interp01.
  destruct (Qltb x 0) eqn:Hx0; [lra|].
  destruct (Qle_bool 1 x) eqn:Hx1; [lra|].
  apply Qltb_false in Hx0.
  assert (Hx1' : x < 1).
  { apply Qnot_le_lt. intros H. apply Qle_bool_iff in H. congruence. }
  assert (E : (b - a) / (1 - 0) * (x - 0) + a == (b - a) * x + a) by field.
  rewrite E. split; nra.
Qed.

Lemma set_attrs_dom_log items kw obj log :
  dom (set_attrs items kw obj log).1 = dom obj ∪ list_to_set (map (fun it => normalize_key it.1) items) /\
  (set_attrs items kw obj log).2 =
    log ++ map (fun it => let key := normalize_key it.1 in
                          match kw !! key with
                          | Some v => InfoSpecified key v
                          | None => InfoDefault key it.2
                          end) items.
Proof.
  revert obj log. induction items as [|[dk dv] rest IH]; intros obj log.
  - cbn. split; [set_solver | by rewrite app_nil_r].
  - cbn. destruct (kw !! normalize_key dk) eqn:Hk;
      rewrite (proj1 (IH _ _)), (proj2 (IH _ _)), dom_insert_L;
      (split; [set_solver | by rewrite <- app_assoc]).
Qed.

(** The energy pie chart of [calc_energy_exergy_balances] closes: net power,
    exhaust enthalpy flow and condenser heat add up to the combustor heat. *)
Theorem energy_balance_closes PropsSI np_log fsolve c st recs b :
  calc_states PropsSI np_log fsolve c = Some (st, recs) ->
  calc_energy_exergy_balances PropsSI c st = Some b ->
  ~ m_dot_steam c == 0 ->
  W_total b + m_dot_gas c * (h_9 st - h_5 st) + Q_14 st == Q_67 c.
Proof.
  intros Hc Hb Hs.
  destruct (calc_states_relations _ _ _ _ _ _ Hc)
    as (Hg & _ & H7 & H3 & H9 & _ & H14 & _).
  destruct (calc_energy_exergy_balances_Some _ _ _ _ Hb) as (_ & _ & ex_exh & _ & ->).
  cbn [W_total]. rewrite H7, H3, H9, H14. field. split; assumption.
Qed.

(** The slices of the exergy pie chart add up to the exergy input [Ex_67]
    plus [(298 - T_0)] times the entropy generated over the two cycles: the
    destruction rates use 298 K, the specific exergies T_0 = 298.15 K. *)
Theorem exergy_pie_offset PropsSI np_log fsolve c st recs b :
  calc_states PropsSI np_log fsolve c = Some (st, recs) ->
  calc_energy_exergy_balances PropsSI c st = Some b ->
  ~ m_dot_steam c == 0 ->
  W_total b + m_dot_gas c * (ex_9 st - ex_5 st) + Ex_14 b + W_56_loss b + W_78_loss b
    + hrsg_loss b + W_12_loss b + W_34_loss b
  == Ex_67 b + (298 - T_0_default) *
       (m_dot_gas c * ((s_6 st - s_5 st) + (s_9 st - s_7 st)) + m_dot_steam c * (s_4 st - s_1 st)).
Proof.
  intros Hc Hb Hs.
  destruct (calc_states_relations _ _ _ _ _ _ Hc)
    as (Hg & _ & H7 & H3 & H9 & _ & H14 & _).
  destruct (calc_states_exergies _ _ _ _ _ _ Hc)
    as (hg & sg & hw & sw & _ & _ & _ & _ & E5 & E6 & E7 & E8 & E9 & E1 & E2 & E3 & E4).
  destruct (calc_energy_exergy_balances_Some _ _ _ _ Hb) as (_ & _ & ex_exh & _ & ->).
  cbn [W_total Ex_14 W_56_loss W_78_loss hrsg_loss W_12_loss W_34_loss Ex_67].
  rewrite E5, E6, E7, E9, E1, E4, H7, H3, H9. field. split; assumption.
Qed.

(** The pressures of [calc_states] form a chain fixed by the configuration,
    so the two pressure warnings depend on the configuration alone: the
    supercritical-risk warning is logged exactly when [p_1 * r_p_pump]
    exceeds [max_p_hrsg_steam], the freezing-risk one exactly when [p_1] is
    below [min_p_cond]. *)
Theorem calc_states_pressure_chain PropsSI np_log fsolve c st recs :
  calc_states PropsSI np_log fsolve c = Some (st, recs) ->
  p_6 st = p_5 c * r_p_comp c /\ p_7 st = p_6 st /\
  p_8 st * r_p_turb c == p_5 c * r_p_comp c /\
  p_2 st = p_1 c * r_p_pump c /\ p_3 st = p_2 st /\ p_4 st = p_1 c /\
  ((exists a b, In (WarnP3 a b) recs) <-> max_p_hrsg_steam c < p_1 c * r_p_pump c) /\
  ((exists a b, In (WarnP4 a b) recs) <-> p_1 c < min_p_cond c).
Proof.
  intros Hc.
  destruct (calc_states_relations _ _ _ _ _ _ Hc)
    as (_ & Ht & _ & _ & _ & _ & _ & H6 & H7 & H8 & H2 & H3 & H4 & _ & _ & _ & ->).
  destruct (check_limits_kinds c st) as (_ & _ & _ & HP3 & HP4 & _).
  rewrite H3, H2 in HP3. rewrite H4 in HP4.
  split; [exact H6|]. split; [exact H7|].
  split; [rewrite H8, H7, H6; field; exact Ht|].
  repeat (split; [assumption|]). exact HP4.
Qed.


(** The exergy input is the combustor heat less [m_dot_gas * T_0] times the
    entropy rise across the combustor; the overall maximum efficiency is the
    gas-cycle one, and (with positive mass flow and heat input) it is at
    most 1 exactly when the entropy does not fall across the combustor. *)
Theorem exergy_input_from_entropy_rise PropsSI np_log fsolve c st recs b :
  calc_states PropsSI np_log fsolve c = Some (st, recs) ->
  calc_energy_exergy_balances PropsSI c st = Some b ->
  Ex_67 b == Q_67 c - m_dot_gas c * T_0_default * (s_7 st - s_6 st) /\
  eta_th_max b = eta_gas_th_max b /\
  (0 < m_dot_gas c -> 0 < Q_67 c -> (eta_th_max b <= 1 <-> s_6 st <= s_7 st)).
Proof.
  intros Hc Hb.
  destruct (calc_states_relations _ _ _ _ _ _ Hc) as (Hg & _ & H7 & _).
  destruct (calc_states_exergies _ _ _ _ _ _ Hc)
    as (hg & sg & hw & sw & _ & _ & _ & _ & _ & E6 & E7 & _).
  destruct (calc_energy_exergy_balances_Some _ _ _ _ Hb) as (HQ & _ & ex_exh & _ & ->).
  cbn [Ex_67 eta_th_max eta_gas_th_max].
  assert (HEx : m_dot_gas c * (ex_7 st - ex_6 st) ==
                Q_67 c - m_dot_gas c * T_0_default * (s_7 st - s_6 st)).
  { rewrite E6, E7, H7. field. exact Hg. }
  split; [exact HEx|]. split; [reflexivity|].
  intros Hm HQp. rewrite HEx.
  assert (HT : 0 < T_0_default) by (unfold T_0_default; lra).
  split.
  - intros Hle.
    assert (Hx : Q_67 c - m_dot_gas c * T_0_default * (s_7 st - s_6 st) ==
                 ((Q_67 c - m_dot_gas c * T_0_default * (s_7 st - s_6 st)) / Q_67 c) * Q_67 c)
      by (field; exact HQ).
    set (k := (Q_67 c - m_dot_gas c * T_0_default * (s_7 st - s_6 st)) / Q_67 c) in *.
    assert (Q_67 c - m_dot_gas c * T_0_default * (s_7 st - s_6 st) <= Q_67 c)
      by (rewrite Hx; nra).
    assert (0 <= m_dot_gas c * T_0_default * (s_7 st - s_6 st)) by lra.
    assert (0 < m_dot_gas c * T_0_default) by nra.
    nra.
  - intros Hs. apply Qle_shift_div_r; [exact HQp|].
    assert (0 < m_dot_gas c * T_0_default) by nra.
    assert (0 <= m_dot_gas c * T_0_default * (s_7 st - s_6 st)) by nra.
    lra.
Qed.

(** The overall thermal efficiency is the gas-cycle efficiency plus the
    steam-cycle efficiency weighted by the share [Q_23 / Q_67] of the heat
    passed on to the steam cycle. *)
Theorem overall_efficiency_composition PropsSI c st b :
  calc_energy_exergy_balances PropsSI c st = Some b ->
  ~ Q_23 st == 0 ->
  eta_th b == eta_gas_th b + eta_steam_th b * (Q_23 st / Q_67 c).
Proof.
  intros Hb H23.
  destruct (calc_energy_exergy_balances_Some _ _ _ _ Hb) as (HQ & _ & ex_exh & _ & ->).
  cbn [eta_th eta_gas_th eta_steam_th]. unfold npdiv. field. split; assumption.
Qed.

(** Evaluated at the dead state itself, [specific_exergy_at_state] returns
    zero whenever the fluid property lookups there succeed. *)
Theorem specific_exergy_at_state_dead_state PropsSI fluid p_0 T_0 h_0 s_0 :
  PropsSI "H" "T" T_0 "P" p_0 fluid = Some h_0 ->
  PropsSI "S" "T" T_0 "P" p_0 fluid = Some s_0 ->
  exists ex, specific_exergy_at_state PropsSI p_0 T_0 fluid p_0 T_0 = Some ex /\ ex == 0.
Proof.
  intros Hh Hs. unfold specific_exergy_at_state. rewrite Hh, Hs.
  eexists. split; [reflexivity | ring].
Qed.

(** With [T_9 <= T_8], the boiling-onset approach lies between [T_9 - T_sat]
    and [T_8 - T_sat] (the interpolation is clamped), so the reported pinch
    is at least the hot-end approach or [T_9 - T_sat]. *)
Theorem pinch_lower_bound PropsSI np_log fsolve c st recs r :
  calc_states PropsSI np_log fsolve c = Some (st, recs) ->
  calc_hrsg_pinch_point PropsSI c st = Some r ->
  T_9 st <= T_8 st ->
  exists T_sat,
    PropsSI "T" "P" (p_2 st) "Q" 0 (steam_fluid c) = Some T_sat /\
    T_9 st - T_sat <= dT_wet_of st T_sat (h_sat_wet r) <= T_8 st - T_sat /\
    (T_8 st - T_3 st <= T_pinch r \/ T_9 st - T_sat <= T_pinch r).
Proof.
  intros Hc Hp H98.
  destruct (calc_states_relations _ _ _ _ _ _ Hc)
    as (_ & _ & _ & _ & _ & _ & _ & _ & _ & _ & _ & _ & _ & Hhot & _).
  unfold calc_hrsg_pinch_point in Hp. peel Hp. injection Hp as <-. cbn.
  exists q. split; [reflexivity|].
  assert (Hw : T_9 st - q <= dT_wet_of st q q0 <= T_8 st - q).
  { unfold dT_wet_of. pose proof (np_interp01_between
      (npdiv (q0 - h_2 st) (h_3 st - h_2 st)) (T_9 st) (T_8 st) H98). lra. }
  split; [exact Hw|]. rewrite Hhot.
  destruct (Qltb (T_8 st - T_3 st) (dT_wet_of st q q0)) eqn:Hlt.
  - left. apply Qle_refl.
  - right. apply Hw.
Qed.

(** Without a keyword argument named [self], the constructor succeeds, sets
    exactly the recognised attributes, and logs one
    INFO record per attribute, in class order, saying whether the value was
    supplied or defaulted. *)
Theorem constructor_attributes_and_log kw log :
  kw !! "self" = None ->
  exists r, CombinedCycleGasTurbine kw log = Some r /\
  dom r.1 = list_to_set recognized_names /\
  r.2 = log ++ map (fun it => let key := normalize_key it.1 in
                              match kw !! key with
                              | Some v => InfoSpecified key v
                              | None => InfoDefault key it.2
                              end) def_items.
Proof.
  intros Hs. exists (set_attrs def_items kw ∅ log).
  split; [apply CombinedCycleGasTurbine_Some; exact Hs|].
  destruct (set_attrs_dom_log def_items kw ∅ log) as [Hd Hl].
  split; [|exact Hl].
  rewrite Hd, dom_empty_L. unfold recognized_names. set_solver.
Qed.


(** Calling [attrs_from_kwargs_or_default] again on an existing instance,
    without a keyword argument named [self], resets every configuration attribute to the supplied or default value,
    whatever it held, and leaves every other attribute (such as computed
    states) as it was. *)
Theorem attrs_rerun_keeps_other_attributes kw obj log k :
  kw !! "self" = None -> k ∉ recognized_names ->
  exists r, attrs_from_kwargs_or_default kw obj log = Some r /\
  r.1 !! k = obj !! k /\
  (forall dk dv, (dk, dv) ∈ def_items ->
     r.1 !! normalize_key dk =
     Some (match kw !! normalize_key dk with Some v => v | None => dv end)).
Proof.
  intros Hs Hk. exists (set_attrs def_items kw obj log).
  split; [apply attrs_from_kwargs_or_default_Some; exact Hs|]. split.
  - apply set_attrs_lookup_other. exact Hk.
  - intros dk dv Hin. apply set_attrs_lookup; [apply recognized_names_NoDup | exact Hin].
Qed.


(* ------------------------------------------------------------------ *)
(** ** Evaluations of the further properties *)

Lemma energy_balance_closes_witness :
  exists st recs b,
    toy_run = Some (st, recs) /\
    calc_energy_exergy_balances toy_PropsSI default_config st = Some b /\
    ~ m_dot_steam default_config == 0 /\
    W_total b + m_dot_gas default_config * (h_9 st - h_5 st) + Q_14 st == Q_67 default_config.
Proof.
  compute_some toy_run E.
  match type of E with _ = Some (?st, ?recs) => exists st, recs;
    compute_some (calc_energy_exergy_balances toy_PropsSI default_config st) Eb end.
  match type of Eb with _ = Some ?b => exists b end.
  assert (Hm : ~ m_dot_steam default_config == 0) by (intros Hq; vm_compute in Hq; discriminate Hq).
  split; [exact E|]. split; [exact Eb|]. split; [exact Hm|].
  exact (energy_balance_closes _ _ _ _ _ _ _ E Eb Hm).
Defined.

Lemma exergy_pie_offset_witness :
  exists st recs b,
    toy_run = Some (st, recs) /\
    calc_energy_exergy_balances toy_PropsSI default_config st = Some b /\
    ~ m_dot_steam default_config == 0 /\
    W_total b + m_dot_gas default_config * (ex_9 st - ex_5 st) + Ex_14 b + W_56_loss b
      + W_78_loss b + hrsg_loss b + W_12_loss b + W_34_loss b
    == Ex_67 b + (298 - T_0_default) *
         (m_dot_gas default_config * ((s_6 st - s_5 st) + (s_9 st - s_7 st))
          + m_dot_steam default_config * (s_4 st - s_1 st)).
Proof.
  compute_some toy_run E.
  match type of E with _ = Some (?st, ?recs) => exists st, recs;
    compute_some (calc_energy_exergy_balances toy_PropsSI default_config st) Eb end.
  match type of Eb with _ = Some ?b => exists b end.
  assert (Hm : ~ m_dot_steam default_config == 0) by (intros Hq; vm_compute in Hq; discriminate Hq).
  split; [exact E|]. split; [exact Eb|]. split; [exact Hm|].
  exact (exergy_pie_offset _ _ _ _ _ _ _ E Eb Hm).
Defined.

Lemma calc_states_pressure_chain_witness :
  exists st recs,
    toy_run = Some (st, recs) /\
    p_8 st * r_p_turb default_config == p_5 default_config * r_p_comp default_config /\
    p_4 st = p_1 default_config.
Proof.
  compute_some toy_run E.
  match type of E with _ = Some (?st, ?recs) => exists st, recs end.
  split; [exact E|].
  destruct (calc_states_pressure_chain _ _ _ _ _ _ E) as (_ & _ & H8 & _ & _ & H4 & _).
  split; [exact H8 | exact H4].
Defined.

Lemma exergy_input_from_entropy_rise_witness :
  exists st recs b,
    toy_run = Some (st, recs) /\
    calc_energy_exergy_balances toy_PropsSI default_config st = Some b /\
    Ex_67 b == Q_67 default_config - m_dot_gas default_config * T_0_default * (s_7 st - s_6 st) /\
    eta_th_max b <= 1.
Proof.
  compute_some toy_run E.
  match type of E with _ = Some (?st, ?recs) => exists st, recs;
    compute_some (calc_energy_exergy_balances toy_PropsSI default_config st) Eb end.
  match type of Eb with _ = Some ?b => exists b end.
  split; [exact E|]. split; [exact Eb|].
  destruct (exergy_input_from_entropy_rise _ _ _ _ _ _ _ E Eb) as (Hx & _ & Hi).
  split; [exact Hx|].
  apply Hi; qdecide.
Defined.

Lemma overall_efficiency_composition_witness :
  exists st recs b,
    toy_run = Some (st, recs) /\
    calc_energy_exergy_balances toy_PropsSI default_config st = Some b /\
    ~ Q_23 st == 0 /\
    eta_th b == eta_gas_th b + eta_steam_th b * (Q_23 st / Q_67 default_config).
Proof.
  compute_some toy_run E.
  match type of E with _ = Some (?st, ?recs) => exists st, recs;
    compute_some (calc_energy_exergy_balances toy_PropsSI default_config st) Eb end.
  match type of Eb with _ = Some ?b => exists b end.
  match type of E with _ = Some (?st, _) =>
    assert (Hq : ~ Q_23 st == 0) by (intros Hq; vm_compute in Hq; discriminate Hq) end.
  split; [exact E|]. split; [exact Eb|]. split; [exact Hq|].
  exact (overall_efficiency_composition _ _ _ _ Eb Hq).
Defined.

Lemma specific_exergy_at_state_dead_state_witness :
  exists ex,
    specific_exergy_at_state toy_PropsSI p_0_default T_0_default "air" p_0_default T_0_default = Some ex /\
    ex == 0.
Proof.
  compute_some (toy_PropsSI "H" "T" T_0_default "P" p_0_default "air") Eh.
  compute_some (toy_PropsSI "S" "T" T_0_default "P" p_0_default "air") Es.
  exact (specific_exergy_at_state_dead_state _ _ _ _ _ _ Eh Es).
Defined.

Lemma pinch_lower_bound_witness :
  exists st recs r,
    cex_run = Some (st, recs) /\
    calc_hrsg_pinch_point toy_PropsSI cex_config st = Some r /\
    T_9 st <= T_8 st /\
    (T_8 st - T_3 st <= T_pinch r \/
     exists T_sat, toy_PropsSI "T" "P" (p_2 st) "Q" 0 (steam_fluid cex_config) = Some T_sat /\
                   T_9 st - T_sat <= T_pinch r).
Proof.
  compute_some cex_run E.
  match type of E with _ = Some (?st, ?recs) => exists st, recs;
    compute_some (calc_hrsg_pinch_point toy_PropsSI cex_config st) Ep end.
  match type of Ep with _ = Some ?r => exists r end.
  match type of E with _ = Some (?st, _) =>
    assert (H98 : T_9 st <= T_8 st) by qdecide end.
  split; [exact E|]. split; [exact Ep|]. split; [exact H98|].
  destruct (pinch_lower_bound _ _ _ _ _ _ _ E Ep H98) as (T_sat & Hs & _ & [H | H]).
  - left. exact H.
  - right. exists T_sat. split; [exact Hs | exact H].
Defined.

Lemma constructor_attributes_and_log_witness :
  ({[ "p_5" := PyInt 5 ]} : gmap string pyval) !! "self" = None /\
  exists r, CombinedCycleGasTurbine {[ "p_5" := PyInt 5 ]} [] = Some r /\
  dom r.1 = list_to_set recognized_names /\
  r.2 = [] ++ map (fun it => let key := normalize_key it.1 in
                             match ({[ "p_5" := PyInt 5 ]} : gmap string pyval) !! key with
                             | Some v => InfoSpecified key v
                             | None => InfoDefault key it.2
                             end) def_items.
Proof.
  assert (Hs : ({[ "p_5" := PyInt 5 ]} : gmap string pyval) !! "self" = None)
    by (vm_compute; reflexivity).
  split; [exact Hs | exact (constructor_attributes_and_log _ [] Hs)].
Defined.

Lemma attrs_rerun_keeps_other_attributes_witness :
  ({[ "p_5" := PyInt 5 ]} : gmap string pyval) !! "self" = None /\
  ("h_5" ∉ recognized_names) /\
  exists r,
    attrs_from_kwargs_or_default {[ "p_5" := PyInt 5 ]}
      (<[ "h_5" := PyFloat 7 ]> (set_attrs def_items ∅ ∅ []).1) [] = Some r /\
    r.1 !! "h_5" = Some (PyFloat 7) /\ r.1 !! "p_5" = Some (PyInt 5).
Proof.
  assert (Hs : ({[ "p_5" := PyInt 5 ]} : gmap string pyval) !! "self" = None)
    by (vm_compute; reflexivity).
  assert (Hk : "h_5" ∉ recognized_names)
    by (apply (bool_decide_unpack _); vm_compute; reflexivity).
  destruct (attrs_rerun_keeps_other_attributes {[ "p_5" := PyInt 5 ]}
     (<[ "h_5" := PyFloat 7 ]> (set_attrs def_items ∅ ∅ []).1) [] "h_5" Hs Hk)
    as (r & Hr & H & Hd).
  split; [exact Hs|]. split; [exact Hk|]. exists r.
  split; [exact Hr|]. split.
  - rewrite H. apply lookup_insert_eq.
  - apply (Hd "_DEF_P_5" (PyInt 101325)).
    apply list_elem_of_In. vm_compute. left. reflexivity.
Defined.

